(** * The HTTP boundary of the telescopes recommender

  A shallow embedding of [internal/app/telescopes/api/routes.go]: the CORS
  configuration, the route table built by [ConfigureRoutes] and
  [EnableAuth], and the two terminal handlers [signalStatus] and
  [recommendClusterSetup], over a small state-passing model of the parts of
  gin the file drives (handler chains, router groups, the response writer). *)

From Stdlib Require Import ZArith Bool Ascii String.
From stdpp Require Import base option list strings gmap.

Set Warnings "-register-all".

Local Open Scope string_scope.
Local Open Scope list_scope.
Local Open Scope Z_scope.

(** ** Request bodies as the JSON decoder sees them *)

Module json.

(** A JSON value.  Number literals are kept as text: this layer never
    looks inside them. *)
Inductive value :=
| Null
| Bool (b : bool)
| Number (lit : string)
| String (s : string)
| Array (elems : list value)
| Object (members : list (string * value)).

(** What [json.NewDecoder(body)] finds: no JSON text at all (with the
    decoder's error text), or a first JSON value. *)
Inductive document :=
| Malformed (err : string)
| Document (v : value).

Definition lower (a : ascii) : ascii :=
  let n := nat_of_ascii a in
  if ((65 <=? n) && (n <=? 90))%nat then ascii_of_nat (n + 32) else a.

Fixpoint foldCase (s : string) : string :=
  match s with
  | EmptyString => EmptyString
  | String.String a s' => String.String (lower a) (foldCase s')
  end.

(** Case-insensitive match of an object key against a struct field name.
    On field names without the letters k and s (as Provider and Region)
    the decoder's Unicode folding and ASCII folding agree. *)
Definition equalFold (key name : string) : bool :=
  String.eqb (foldCase key) (foldCase name).

End json.

(** ** The recommender package, as far as this file uses it *)

Module recommender.

(** The engine and its request and response schemas are declared in
    [pkg/recommender]; routes.go uses the two types, the zero value of the
    request schema and the method [RecommendCluster], and reads an error
    only through its [Error()] text. *)
Class Engine := {
  ClusterRecommendationReq : Type;
  ClusterRecommendationResp : Type;
  error : Type;
  Error : error -> string;
  zeroReq : ClusterRecommendationReq;
  RecommendCluster :
    string -> string -> ClusterRecommendationReq ->
    option ClusterRecommendationResp * option error
}.

End recommender.

(** ** cors.Config *)

Module cors.

Record Config := {
  AllowAllOrigins : bool;
  AllowOrigins : list string;
  AllowMethods : list string;
  AllowHeaders : list string;
  AllowCredentials : bool;
  ExposeHeaders : list string;
  MaxAge : Z
}.

(** What the middleware built by [cors.New] decides for one request:
    let it through with some response headers, or answer it itself. *)
Inductive verdict :=
| Pass (hdrs : list (string * string))
| Answer (code : Z) (hdrs : list (string * string)).

End cors.

(** ** gin: handler identities, contexts, the response writer *)

(** The handlers this file puts on a chain. *)
Inductive HandlerId :=
| JWTAuthH (role sgnKey : string)
| CorsH (config : cors.Config)
| ValidatePathParamH (name tag : string)
| ValidateRegionDataH
| signalStatusH
| recommendClusterSetupH.

Inductive hval :=
| HString (s : string)
| HInt (n : Z).

(** A request as the handlers read it.  [Credential] is the bearer
    credential the request carries, if any, wherever the token check looks
    for it. *)
Record Request := {
  Method : string;
  Header : gmap string string;
  Credential : option string;
  Body : json.document
}.

Section Gin.
Context `{Eng : recommender.Engine}.

(** Values handed to [c.JSON]: a string, a [gin.H], or the engine's
    result. *)
Inductive Payload :=
| PString (s : string)
| PMap (h : gmap string hval)
| PResult (r : recommender.ClusterRecommendationResp).

(** Observable steps of one request, in order. *)
Inductive Event :=
| Invoked (h : HandlerId)
| Bound
| EngineCall (provider region : string)
             (req : recommender.ClusterRecommendationReq).

(** [status] is the code the writer holds, [sent] the code that went out
    with the header (at most once), [body] the payloads written. *)
Record ResponseWriter := {
  status : Z;
  sent : option Z;
  header : list (string * string);
  body : list Payload
}.

Record Ctx := {
  Req : Request;
  Params : list (string * string);
  Writer : ResponseWriter;
  aborted : bool;
  Errors : list string;
  identity : option string;
  panicked : bool;
  trace : list Event
}.

Definition freshWriter : ResponseWriter :=
  {| status := 200; sent := None; header := []; body := [] |}.

Definition newContext (r : Request) (ps : list (string * string)) : Ctx :=
  {| Req := r; Params := ps; Writer := freshWriter; aborted := false;
     Errors := []; identity := None; panicked := false; trace := [] |}.

(** [c.Param(key)]: the first entry with that key, else the empty string. *)
Fixpoint ByName (ps : list (string * string)) (name : string) : string :=
  match ps with
  | [] => ""
  | (k, v) :: ps' => if String.eqb k name then v else ByName ps' name
  end.

Definition Param (c : Ctx) (key : string) : string := ByName (Params c) key.

Definition withWriter (w : ResponseWriter) (c : Ctx) : Ctx :=
  {| Req := Req c; Params := Params c; Writer := w; aborted := aborted c;
     Errors := Errors c; identity := identity c; panicked := panicked c;
     trace := trace c |}.

Definition log (e : Event) (c : Ctx) : Ctx :=
  {| Req := Req c; Params := Params c; Writer := Writer c;
     aborted := aborted c; Errors := Errors c; identity := identity c;
     panicked := panicked c; trace := trace c ++ [e] |}.

Definition Abort (c : Ctx) : Ctx :=
  {| Req := Req c; Params := Params c; Writer := Writer c; aborted := true;
     Errors := Errors c; identity := identity c; panicked := panicked c;
     trace := trace c |}.

Definition panic (c : Ctx) : Ctx :=
  {| Req := Req c; Params := Params c; Writer := Writer c;
     aborted := aborted c; Errors := Errors c; identity := identity c;
     panicked := true; trace := trace c |}.

Definition pushError (err : string) (c : Ctx) : Ctx :=
  {| Req := Req c; Params := Params c; Writer := Writer c;
     aborted := aborted c; Errors := Errors c ++ [err];
     identity := identity c; panicked := panicked c; trace := trace c |}.

Definition setIdentity (who : string) (c : Ctx) : Ctx :=
  {| Req := Req c; Params := Params c; Writer := Writer c;
     aborted := aborted c; Errors := Errors c; identity := Some who;
     panicked := panicked c; trace := trace c |}.

Definition WriteHeader (code : Z) (w : ResponseWriter) : ResponseWriter :=
  if (0 <? code) && negb (status w =? code)
  then {| status := code; sent := sent w; header := header w; body := body w |}
  else w.

Definition WriteHeaderNow (w : ResponseWriter) : ResponseWriter :=
  match sent w with
  | Some _ => w
  | None => {| status := status w; sent := Some (status w);
               header := header w; body := body w |}
  end.

Definition Write (p : Payload) (w : ResponseWriter) : ResponseWriter :=
  let w' := WriteHeaderNow w in
  {| status := status w'; sent := sent w'; header := header w';
     body := body w' ++ [p] |}.

Definition addHeaders (hs : list (string * string)) (w : ResponseWriter)
  : ResponseWriter :=
  {| status := status w; sent := sent w; header := header w ++ hs;
     body := body w |}.

Definition bodyAllowedForStatus (code : Z) : bool :=
  negb (((100 <=? code) && (code <=? 199)) || (code =? 204) || (code =? 304)).

(** [c.JSON(code, obj)] *)
Definition JSON (code : Z) (obj : Payload) (c : Ctx) : Ctx :=
  let w := WriteHeader code (Writer c) in
  withWriter (if bodyAllowedForStatus code then Write obj w
              else WriteHeaderNow w) c.

Definition AbortWithStatus (code : Z) (c : Ctx) : Ctx :=
  Abort (withWriter (WriteHeaderNow (WriteHeader code (Writer c))) c).

Definition AbortWithStatusJSON (code : Z) (obj : Payload) (c : Ctx) : Ctx :=
  JSON code obj (Abort c).

Definition AbortWithError (code : Z) (err : string) (c : Ctx) : Ctx :=
  pushError err (AbortWithStatus code c).

Definition stopped (c : Ctx) : bool := aborted c || panicked c.

(** What the client gets: the code sent with the header and the payloads. *)
Definition response (c : Ctx) : option Z * list Payload :=
  (sent (Writer c), body (Writer c)).

End Gin.

(** ** The api package *)

Definition providerParam : string := "provider".
Definition regionParam : string := "region".

Section Api.
Context `{Eng : recommender.Engine}.

(** RequestWrapper: the engine's request schema, embedded, next to the two
    path-derived fields. *)
Record RequestWrapper := {
  ClusterRecommendationReq : recommender.ClusterRecommendationReq;
  Provider : string;
  Region : string
}.

(** What routes.go takes from the libraries it imports and from the rest of
    the repository:
    - [joinPaths]: gin's joining of a group path with a relative path;
    - [cors_DefaultConfig], [cors_decide]: gin-contrib/cors;
    - [verifyToken]: bank-vaults' check of the bearer credential against the
      token store of a role and a signing key, giving the body of its
      rejection or the identity it attaches;
    - [validateField]: the rule engine behind [binding.Validator], on one
      value and one tag, giving the cause when the rule fails;
    - [checkRegion]: the region catalog, giving the cause when the region is
      unknown for the provider or the lookup fails;
    - [decodeReqField]: encoding/json on one object member that is not one of
      the wrapper's own two fields, i.e. on the promoted fields of the
      embedded schema (a plain struct that declares no field named provider
      or region and no decoder of its own);
    - [unmarshalTypeError]: the text of the decoder's type error for a value
      and a field;
    - [validateStruct]: the binding validator run on the decoded wrapper,
      giving the text of its error. *)
Class Collaborators := {
  joinPaths : string -> string -> string;
  cors_DefaultConfig : cors.Config;
  cors_decide : cors.Config -> Request -> cors.verdict;
  verifyToken : string -> string -> Request -> gmap string hval + string;
  validateField : string -> string -> option string;
  checkRegion : string -> string -> option string;
  decodeReqField :
    string -> json.value -> recommender.ClusterRecommendationReq ->
    string + recommender.ClusterRecommendationReq;
  unmarshalTypeError : json.value -> string -> string;
  validateStruct : RequestWrapper -> option string
}.

Context `{Col : Collaborators}.

(** [gin.H{...}] *)
Definition gin_H (entries : list (string * hval)) : gmap string hval :=
  list_to_map entries.

(** *** Router groups and the route table *)

Record RouterGroup := {
  Handlers : list HandlerId;
  basePath : string
}.

Record Route := {
  method : string;
  path : string;
  chain : list HandlerId
}.

Record GinEngine := {
  root : RouterGroup;
  trees : list Route
}.

(** [gin.New()] *)
Definition New : GinEngine :=
  {| root := {| Handlers := []; basePath := "/" |}; trees := [] |}.

(** [group.Use(middleware...)] *)
Definition Use (group : RouterGroup) (middleware : list HandlerId) : RouterGroup :=
  {| Handlers := Handlers group ++ middleware; basePath := basePath group |}.

(** [router.Use(middleware...)], on the engine's own group.  (gin also
    rebuilds its no-route chains from that group; requests that match no
    route are outside this model.) *)
Definition EngineUse (router : GinEngine) (middleware : list HandlerId) : GinEngine :=
  {| root := Use (root router) middleware; trees := trees router |}.

(** [group.Group(relativePath)]: a new group with a copy of the handlers *)
Definition Group (group : RouterGroup) (relativePath : string) : RouterGroup :=
  {| Handlers := Handlers group;
     basePath := joinPaths (basePath group) relativePath |}.

(** [group.handle(httpMethod, relativePath, handler)]: the chain of the route
    is the group's handlers at this moment, then the handler. *)
Definition handle (router : GinEngine) (group : RouterGroup)
  (httpMethod relativePath : string) (h : HandlerId) : GinEngine :=
  {| root := root router;
     trees := trees router ++
       [{| method := httpMethod;
           path := joinPaths (basePath group) relativePath;
           chain := Handlers group ++ [h] |}] |}.

Definition GET router group relativePath h := handle router group "GET" relativePath h.
Definition POST router group relativePath h := handle router group "POST" relativePath h.

(** *** getCorsConfig *)

Definition getCorsConfig : cors.Config :=
  let config := cors_DefaultConfig in
  let config :=
    {| cors.AllowAllOrigins := true;
       cors.AllowOrigins := cors.AllowOrigins config;
       cors.AllowMethods := cors.AllowMethods config;
       cors.AllowHeaders := cors.AllowHeaders config;
       cors.AllowCredentials := cors.AllowCredentials config;
       cors.ExposeHeaders := cors.ExposeHeaders config;
       cors.MaxAge := cors.MaxAge config |} in
  let origins :=
    if negb (cors.AllowAllOrigins config) then ["http://"; "https://"]
    else cors.AllowOrigins config in
  {| cors.AllowAllOrigins := cors.AllowAllOrigins config;
     cors.AllowOrigins := origins;
     cors.AllowMethods := ["PUT"; "DELETE"; "GET"; "POST"; "OPTIONS"];
     cors.AllowHeaders := ["Origin"; "Authorization"; "Content-Type"];
     cors.AllowCredentials := true;
     cors.ExposeHeaders := ["Content-Length"];
     cors.MaxAge := 12 |}.

(** *** ConfigureRoutes and EnableAuth *)

(** [os.Getenv]: the empty string when the variable is not set. *)
Definition Getenv (env : gmap string string) (key : string) : string :=
  default "" (env !! key).

(** The [basePath] local of ConfigureRoutes. *)
Definition configuredBasePath (env : gmap string string) : string :=
  let basePath := "/" in
  let basePathFromEnv := Getenv env "TELESCOPES_BASEPATH" in
  if negb (String.eqb basePathFromEnv "") then basePathFromEnv else basePath.

Definition ConfigureRoutes (env : gmap string string) (router : GinEngine)
  : GinEngine :=
  let basePath := configuredBasePath env in
  let router := EngineUse router [CorsH getCorsConfig] in
  let base := Group (root router) basePath in
  let router := GET router base "/status" signalStatusH in
  let v1 := Group base "/api/v1" in
  let v1 := Use v1 [ValidatePathParamH providerParam "provider"] in
  let v1 := Use v1 [ValidateRegionDataH] in
  let recGroup := Group v1 "/recommender" in
  POST router recGroup "/:provider/:region/cluster/" recommendClusterSetupH.

Definition EnableAuth (router : GinEngine) (role sgnKey : string) : GinEngine :=
  EngineUse router [JWTAuthH role sgnKey].

(** The full patterns of the two routes. *)
Definition statusPath (env : gmap string string) : string :=
  joinPaths (joinPaths "/" (configuredBasePath env)) "/status".

Definition recommendPath (env : gmap string string) : string :=
  joinPaths
    (joinPaths (joinPaths (joinPaths "/" (configuredBasePath env)) "/api/v1")
               "/recommender")
    "/:provider/:region/cluster/".

(** *** Middleware *)

(** [auth.JWTAuth(auth.NewVaultTokenStore(role), sgnKey, nil)] *)
Definition JWTAuth (role sgnKey : string) (c : Ctx) : Ctx :=
  match verifyToken role sgnKey (Req c) with
  | inl reason => AbortWithStatusJSON 401 (PMap reason) c
  | inr who => setIdentity who c
  end.

(** [cors.New(config)] *)
Definition corsMiddleware (config : cors.Config) (c : Ctx) : Ctx :=
  match cors_decide config (Req c) with
  | cors.Pass hdrs => withWriter (addHeaders hdrs (Writer c)) c
  | cors.Answer code hdrs =>
      AbortWithStatus code (withWriter (addHeaders hdrs (Writer c)) c)
  end.

(** Modelled from the spec: the body of ValidatePathParam and
    ValidateRegionData's 400 response, declared in another file of the
    package; the spec gives a validation failure the shape
    [{code: "bad_params", message: "validation failed", cause}]. *)
Definition validationFailure (cause : string) : Payload :=
  PMap (gin_H [("code", HString "bad_params");
               ("message", HString "validation failed");
               ("cause", HString cause)]).

(** Modelled from the spec: ValidatePathParam, declared in another file of
    the package.  It extracts the raw value of the named path parameter,
    runs it through the rule engine under the tag, and either passes the
    request through unmodified or short-circuits with a 400 response. *)
Definition ValidatePathParam (name tag : string) (c : Ctx) : Ctx :=
  match validateField (Param c name) tag with
  | Some cause => AbortWithStatusJSON 400 (validationFailure cause) c
  | None => c
  end.

(** Modelled from the spec: ValidateRegionData, declared in another file of
    the package.  Given the provider parameter it checks that the region
    parameter is a region of that provider, and fails closed: an unknown
    region or a lookup error short-circuits with a 400 response carrying the
    cause. *)
Definition ValidateRegionData (c : Ctx) : Ctx :=
  match checkRegion (Param c providerParam) (Param c regionParam) with
  | Some cause => AbortWithStatusJSON 400 (validationFailure cause) c
  | None => c
  end.

(** *** Binding the body onto the wrapper *)

Definition decodeString (field : string) (v : json.value) (old : string)
  : string + string :=
  match v with
  | json.String s => inr s
  | json.Null => inr old
  | _ => inl (unmarshalTypeError v field)
  end.

(** One object member decoded onto the wrapper: a key that matches Provider
    or Region sets that field, any other key goes to the embedded schema. *)
Definition decodeMember (key : string) (v : json.value) (req : RequestWrapper)
  : string + RequestWrapper :=
  if json.equalFold key "Provider" then
    match decodeString "RequestWrapper.Provider" v (Provider req) with
    | inl err => inl err
    | inr p =>
        inr {| ClusterRecommendationReq := ClusterRecommendationReq req;
               Provider := p; Region := Region req |}
    end
  else if json.equalFold key "Region" then
    match decodeString "RequestWrapper.Region" v (Region req) with
    | inl err => inl err
    | inr r =>
        inr {| ClusterRecommendationReq := ClusterRecommendationReq req;
               Provider := Provider req; Region := r |}
    end
  else
    match decodeReqField key v (ClusterRecommendationReq req) with
    | inl err => inl err
    | inr w =>
        inr {| ClusterRecommendationReq := w;
               Provider := Provider req; Region := Region req |}
    end.

Fixpoint decodeMembers (members : list (string * json.value))
  (req : RequestWrapper) : string + RequestWrapper :=
  match members with
  | [] => inr req
  | (key, v) :: members' =>
      match decodeMember key v req with
      | inl err => inl err
      | inr req' => decodeMembers members' req'
      end
  end.

(** [json.NewDecoder(body).Decode(&req)] *)
Definition Decode (d : json.document) (req : RequestWrapper)
  : string + RequestWrapper :=
  match d with
  | json.Malformed err => inl err
  | json.Document json.Null => inr req
  | json.Document (json.Object members) => decodeMembers members req
  | json.Document v => inl (unmarshalTypeError v "")
  end.

(** [c.ShouldBindWith(&req, binding.JSON)]: decode, then validate. *)
Definition ShouldBindJSON (r : Request) (req : RequestWrapper)
  : string + RequestWrapper :=
  match Decode (Body r) req with
  | inl err => inl err
  | inr req' =>
      match validateStruct req' with
      | Some err => inl err
      | None => inr req'
      end
  end.

(** [c.BindJSON(&req)]: on an error gin has already answered 400 and
    aborted the context when the error is returned. *)
Definition BindJSON (c : Ctx) (req : RequestWrapper)
  : Ctx * (string + RequestWrapper) :=
  let c := log Bound c in
  match ShouldBindJSON (Req c) req with
  | inl err => (AbortWithError 400 err c, inl err)
  | inr req' => (c, inr req')
  end.

(** *** The two terminal handlers *)

Definition signalStatus (c : Ctx) : Ctx :=
  JSON 200 (PString "ok") c.

(** [RequestWrapper{Provider: provider, Region: region}]: the wrapper
    recommendClusterSetup starts from, the embedded schema at its zero
    value. *)
Definition decorated (c : Ctx) : RequestWrapper :=
  {| ClusterRecommendationReq := recommender.zeroReq;
     Provider := Param c providerParam;
     Region := Param c regionParam |}.

Definition recommendClusterSetup (c : Ctx) : Ctx :=
  let provider := Param c providerParam in
  let region := Param c regionParam in
  let req := decorated c in
  match BindJSON c req with
  | (c, inl err) =>
      JSON 400 (PMap (gin_H [("code", HString "bad_params");
                             ("message", HString "validation failed");
                             ("cause", HString err)])) c
  | (c, inr req) =>
      let c :=
        log (EngineCall provider region (ClusterRecommendationReq req)) c in
      match recommender.RecommendCluster provider region
              (ClusterRecommendationReq req) with
      | (_, Some err) =>
          JSON 500 (PMap (gin_H [("status", HInt 500);
                                 ("message", HString (recommender.Error err))])) c
      | (Some response, None) => JSON 200 (PResult response) c
      | (None, None) => panic c
      end
  end.

(** *** Running a chain *)

Definition handler (h : HandlerId) : Ctx -> Ctx :=
  match h with
  | JWTAuthH role sgnKey => JWTAuth role sgnKey
  | CorsH config => corsMiddleware config
  | ValidatePathParamH name tag => ValidatePathParam name tag
  | ValidateRegionDataH => ValidateRegionData
  | signalStatusH => signalStatus
  | recommendClusterSetupH => recommendClusterSetup
  end.

(** [c.Next()]: the handlers run in order until one aborts (or panics). *)
Fixpoint Next (hs : list HandlerId) (c : Ctx) : Ctx :=
  match hs with
  | [] => c
  | h :: hs' =>
      if stopped c then c else Next hs' (handler h (log (Invoked h) c))
  end.

(** The route registered under a method and a pattern. *)
Definition lookupRoute (router : GinEngine) (httpMethod pattern : string)
  : option Route :=
  find (fun rt => String.eqb (method rt) httpMethod
                  && String.eqb (path rt) pattern) (trees router).

(** A request dispatched to the route registered under [pattern], with the
    path parameters the router extracted.  [None] stands for a request that
    matches no registered route: what gin answers it (the router-wide
    handlers, then 404) is not modelled. *)
Definition serve (router : GinEngine) (pattern : string) (r : Request)
  (ps : list (string * string)) : option Ctx :=
  match lookupRoute router (Method r) pattern with
  | Some rt => Some (Next (chain rt) (newContext r ps))
  | None => None
  end.

(** The router of a process that enables authentication (or not) and then
    configures its routes. *)
Definition startup (authn : option (string * string))
  (env : gmap string string) : GinEngine :=
  ConfigureRoutes env
    (match authn with
     | Some (role, sgnKey) => EnableAuth New role sgnKey
     | None => New
     end).

(** *** Vocabulary of the properties *)

(** The handlers [EnableAuth] puts in front of every chain. *)
Definition authChain (authn : option (string * string)) : list HandlerId :=
  match authn with
  | Some (role, sgnKey) => [JWTAuthH role sgnKey]
  | None => []
  end.

(** The chains [ConfigureRoutes] gives its two routes. *)
Definition statusChain (authn : option (string * string)) : list HandlerId :=
  authChain authn ++ [CorsH getCorsConfig; signalStatusH].

Definition recommendChain (authn : option (string * string)) : list HandlerId :=
  authChain authn ++
  [CorsH getCorsConfig; ValidatePathParamH providerParam "provider";
   ValidateRegionDataH; recommendClusterSetupH].

(** The handlers a trace saw invoked, in order. *)
Fixpoint invoked (t : list Event) : list HandlerId :=
  match t with
  | [] => []
  | Invoked h :: t' => h :: invoked t'
  | _ :: t' => invoked t'
  end.

(** The engine calls of a trace: provider, region and request schema. *)
Fixpoint engineCalls (t : list Event)
  : list (string * string * recommender.ClusterRecommendationReq) :=
  match t with
  | [] => []
  | EngineCall provider region req :: t' =>
      (provider, region, req) :: engineCalls t'
  | _ :: t' => engineCalls t'
  end.

(** A context no handler has answered yet: still running, nothing sent,
    nothing written, with trace [t]. *)
Definition ready (r : Request) (ps : list (string * string))
  (t : list Event) (c : Ctx) : Prop :=
  Req c = r /\ Params c = ps /\ aborted c = false /\ panicked c = false /\
  sent (Writer c) = None /\ body (Writer c) = [] /\ trace c = t.

(** The body is an object with a member whose key matches [field]. *)
Definition mentions (field : string) (d : json.document) : bool :=
  match d with
  | json.Document (json.Object members) =>
      existsb (fun m => json.equalFold (fst m) field) members
  | _ => false
  end.

(** gin-contrib/cors lets a request through (it only adds headers) when all
    origins are allowed and the request is not a preflight. *)
Definition cors_contract : Prop :=
  forall config r,
    cors.AllowAllOrigins config = true -> Method r <> "OPTIONS" ->
    exists hdrs, cors_decide config r = cors.Pass hdrs.

(** The token check rejects a request that carries no credential. *)
Definition jwt_contract : Prop :=
  forall role sgnKey r,
    Credential r = None -> exists reason, verifyToken role sgnKey r = inl reason.

(** The credential check, when there is one, accepts the request. *)
Definition authenticated (authn : option (string * string)) (r : Request)
  : Prop :=
  match authn with
  | Some (role, sgnKey) => exists who, verifyToken role sgnKey r = inr who
  | None => True
  end.

(** Both path validators accept the parameters. *)
Definition pathValid (ps : list (string * string)) : Prop :=
  validateField (ByName ps providerParam) "provider" = None /\
  checkRegion (ByName ps providerParam) (ByName ps regionParam) = None.

(** The wrapper of a request: built from the path, the embedded schema at
    its zero value. *)
Definition wrapperOf (ps : list (string * string)) : RequestWrapper :=
  {| ClusterRecommendationReq := recommender.zeroReq;
     Provider := ByName ps providerParam;
     Region := ByName ps regionParam |}.

(** The claim that the wrapper a request is bound to keeps the path's
    provider and region. *)
Definition pathFieldsKept (r : Request) (ps : list (string * string)) : Prop :=
  forall req,
    ShouldBindJSON r (wrapperOf ps) = inr req ->
    Provider req = ByName ps providerParam /\
    Region req = ByName ps regionParam.

(** The context holds the handler's answer to an engine outcome: 500 with
    the error's text when there is an error, else 200 with the result, else
    (neither result nor error) the panic of the nil dereference, nothing
    sent. *)
Definition engineAnswer
  (outcome : option recommender.ClusterRecommendationResp *
             option recommender.error) (c : Ctx) : Prop :=
  match outcome with
  | (_, Some err) =>
      response c =
        (Some 500, [PMap (gin_H [("status", HInt 500);
                                 ("message", HString (recommender.Error err))])])
  | (Some result, None) => response c = (Some 200, [PResult result])
  | (None, None) => panicked c = true /\ response c = (None, [])
  end.

(** Two contexts that agree on everything a handler reads or a client
    sees: they differ at most in the identity attached and in the trace. *)
Definition sameAnswer (c1 c2 : Ctx) : Prop :=
  Req c1 = Req c2 /\ Params c1 = Params c2 /\ Writer c1 = Writer c2 /\
  aborted c1 = aborted c2 /\ panicked c1 = panicked c2 /\
  Errors c1 = Errors c2.

(** The claim that the status route answers 200 "ok" whatever the
    authentication setting and the credential. *)
Definition statusAlwaysOk : Prop :=
  forall authn env r ps,
    Method r = "GET" ->
    exists c,
      serve (startup authn env) (statusPath env) r ps = Some c /\
      response c = (Some 200, [PString "ok"]).

End Api.

Arguments gin_H : simpl never.

(** ** A sample deployment

    Concrete collaborators on which the statements below are exercised: an
    engine whose request schema keeps the members it is given, and the
    simplest libraries that meet the contracts above. *)

Module Sample.

Definition engine : recommender.Engine :=
  {| recommender.ClusterRecommendationReq := list (string * json.value);
     recommender.ClusterRecommendationResp := string;
     recommender.error := string;
     recommender.Error := fun e => e;
     recommender.zeroReq := [];
     recommender.RecommendCluster := fun provider region req =>
       if String.eqb region "eu-west-1"
       then (Some ("3 nodes on " +:+ provider), None)
       else (None, Some "no feasible layout") |}.

Definition joinPaths (absolutePath relativePath : string) : string :=
  if String.eqb relativePath "" then absolutePath
  else if String.eqb absolutePath "/" then relativePath
  else absolutePath +:+ relativePath.

Definition DefaultConfig : cors.Config :=
  {| cors.AllowAllOrigins := false;
     cors.AllowOrigins := [];
     cors.AllowMethods := ["GET"; "POST"; "PUT"; "HEAD"];
     cors.AllowHeaders := ["Origin"; "Content-Length"; "Content-Type"];
     cors.AllowCredentials := false;
     cors.ExposeHeaders := [];
     cors.MaxAge := 43200000000000 |}.

Definition decide_cors (config : cors.Config) (r : Request) : cors.verdict :=
  match Header r !! "Origin" with
  | None => cors.Pass []
  | Some origin =>
      if negb (cors.AllowAllOrigins config
               || existsb (String.eqb origin) (cors.AllowOrigins config))
      then cors.Answer 403 []
      else if String.eqb (Method r) "OPTIONS"
      then cors.Answer 200 [("Access-Control-Allow-Origin", "*")]
      else cors.Pass [("Access-Control-Allow-Origin", "*")]
  end.

Definition verifyToken (role sgnKey : string) (r : Request)
  : gmap string hval + string :=
  match Credential r with
  | Some token =>
      if String.eqb token sgnKey then inr role
      else inl {["message" := HString "Invalid token"]}
  | None => inl {["message" := HString "Invalid token"]}
  end.

Definition validateField (v tag : string) : option string :=
  if String.eqb tag "provider"
  then if existsb (String.eqb v) ["amazon"; "google"; "azure"] then None
       else Some "unknown provider"
  else None.

Definition checkRegion (provider region : string) : option string :=
  if String.eqb region "eu-west-1" || String.eqb region "us-east-1" then None
  else Some "unknown region".

Definition decodeReqField (key : string) (v : json.value)
  (req : list (string * json.value)) : string + list (string * json.value) :=
  inr (req ++ [(key, v)])%list.

Definition unmarshalTypeError (v : json.value) (field : string) : string :=
  "json: cannot unmarshal into " +:+ field.

Definition validateStruct (req : @RequestWrapper engine) : option string :=
  if existsb (fun m => String.eqb (fst m) "sumCpu")
             (@ClusterRecommendationReq engine req)
  then None else Some "sumCpu is required".

Definition collaborators : @Collaborators engine :=
  @Build_Collaborators engine joinPaths DefaultConfig decide_cors verifyToken
    validateField checkRegion decodeReqField unmarshalTypeError
    validateStruct.

Definition params : list (string * string) :=
  [("provider", "amazon"); ("region", "eu-west-1")].

Definition workload : json.value :=
  json.Object [("sumCpu", json.Number "8"); ("sumMem", json.Number "16")].

(** A body that names a provider of its own. *)
Definition conflicting : json.value :=
  json.Object [("sumCpu", json.Number "8"); ("provider", json.String "google")].

Definition request (m : string) (credential : option string)
  (d : json.document) : Request :=
  {| Method := m; Header := ∅; Credential := credential; Body := d |}.

(** What [workload] binds to on the path of [params]. *)
Definition bound : @RequestWrapper engine :=
  @Build_RequestWrapper engine
    [("sumCpu", json.Number "8"); ("sumMem", json.Number "16")]
    "amazon" "eu-west-1".

(** What [conflicting] binds to on the path of [params]. *)
Definition overridden : @RequestWrapper engine :=
  @Build_RequestWrapper engine [("sumCpu", json.Number "8")]
    "google" "eu-west-1".

End Sample.

(** A second deployment, with the libraries of [Sample] and an engine that
    returns neither a result nor an error for the region "us-east-1". *)
Module Quiet.

Definition engine : recommender.Engine :=
  {| recommender.ClusterRecommendationReq := list (string * json.value);
     recommender.ClusterRecommendationResp := string;
     recommender.error := string;
     recommender.Error := fun e => e;
     recommender.zeroReq := [];
     recommender.RecommendCluster := fun provider region req =>
       if String.eqb region "us-east-1" then (None, None)
       else (Some ("3 nodes on " +:+ provider), None) |}.

Definition validateStruct (req : @RequestWrapper engine) : option string :=
  if existsb (fun m => String.eqb (fst m) "sumCpu")
             (@ClusterRecommendationReq engine req)
  then None else Some "sumCpu is required".

Definition collaborators : @Collaborators engine :=
  @Build_Collaborators engine Sample.joinPaths Sample.DefaultConfig
    Sample.decide_cors Sample.verifyToken Sample.validateField
    Sample.checkRegion Sample.decodeReqField Sample.unmarshalTypeError
    validateStruct.

Definition params : list (string * string) :=
  [("provider", "amazon"); ("region", "us-east-1")].

Definition bound : @RequestWrapper engine :=
  @Build_RequestWrapper engine
    [("sumCpu", json.Number "8"); ("sumMem", json.Number "16")]
    "amazon" "us-east-1".

End Quiet.


(** ** Properties *)

Section Properties.
Context `{Eng : recommender.Engine} `{Col : !Collaborators}.

(** *** The route table *)

Lemma startup_trees authn env :
  trees (startup authn env) =
  [ {| method := "GET"; path := statusPath env; chain := statusChain authn |};
    {| method := "POST"; path := recommendPath env;
       chain := recommendChain authn |} ].
Proof. destruct authn as [[role sgnKey]|]; reflexivity. Qed.

Lemma lookup_status authn env :
  lookupRoute (startup authn env) "GET" (statusPath env) =
  Some {| method := "GET"; path := statusPath env;
          chain := statusChain authn |}.
Proof.
  unfold lookupRoute. rewrite startup_trees. simpl.
  now rewrite String.eqb_refl.
Qed.

Lemma lookup_recommend authn env :
  lookupRoute (startup authn env) "POST" (recommendPath env) =
  Some {| method := "POST"; path := recommendPath env;
          chain := recommendChain authn |}.
Proof.
  unfold lookupRoute. rewrite startup_trees. simpl.
  now rewrite String.eqb_refl.
Qed.

Lemma serve_status authn env r ps :
  Method r = "GET" ->
  serve (startup authn env) (statusPath env) r ps =
  Some (Next (statusChain authn) (newContext r ps)).
Proof. intros Hm. unfold serve. now rewrite Hm, lookup_status. Qed.

Lemma serve_recommend authn env r ps :
  Method r = "POST" ->
  serve (startup authn env) (recommendPath env) r ps =
  Some (Next (recommendChain authn) (newContext r ps)).
Proof. intros Hm. unfold serve. now rewrite Hm, lookup_recommend. Qed.

(** *** Running chains *)

Lemma Next_stopped hs c : stopped c = true -> Next hs c = c.
Proof. destruct hs as [|h hs]; simpl; [easy|]. now intros ->. Qed.

Lemma Next_cons h hs c :
  stopped c = false ->
  Next (h :: hs) c = Next hs (handler h (log (Invoked h) c)).
Proof. simpl. now intros ->. Qed.

Lemma Next_app hs1 hs2 c : Next (hs1 ++ hs2) c = Next hs2 (Next hs1 c).
Proof.
  revert c. induction hs1 as [|h hs1 IH]; intros c; [reflexivity|].
  simpl. destruct (stopped c) eqn:Hs; [|apply IH].
  symmetry. now apply Next_stopped.
Qed.

Lemma invoked_app t1 t2 : invoked (t1 ++ t2) = invoked t1 ++ invoked t2.
Proof.
  induction t1 as [|e t1 IH]; [reflexivity|].
  destruct e; simpl; now rewrite IH.
Qed.

Lemma invoked_fmap hs : invoked (Invoked <$> hs) = hs.
Proof. induction hs as [|h hs IH]; simpl; [reflexivity|]. now f_equal. Qed.

(** No handler logs an invocation of its own: only the chain does. *)
Lemma handler_invoked h c : invoked (trace (handler h c)) = invoked (trace c).
Proof.
  destruct h; simpl.
  - unfold JWTAuth. now destruct (verifyToken _ _ _).
  - unfold corsMiddleware. now destruct (cors_decide _ _).
  - unfold ValidatePathParam. now destruct (validateField _ _).
  - unfold ValidateRegionData. now destruct (checkRegion _ _).
  - reflexivity.
  - unfold recommendClusterSetup, BindJSON.
    destruct (ShouldBindJSON _ _) as [err|req]; simpl.
    + rewrite invoked_app. simpl. apply app_nil_r.
    + destruct (recommender.RecommendCluster _ _ _) as [[resp|] [err|]];
        simpl; rewrite !invoked_app; simpl; now rewrite !app_nil_r.
Qed.

(** The handlers that ran are an initial segment of the chain. *)
Lemma Next_invoked_prefix hs c :
  exists n, invoked (trace (Next hs c)) = invoked (trace c) ++ take n hs.
Proof.
  revert c. induction hs as [|h hs IH]; intros c.
  - exists 0%nat. simpl. now rewrite app_nil_r.
  - simpl. destruct (stopped c).
    + exists 0%nat. simpl. now rewrite app_nil_r.
    + destruct (IH (handler h (log (Invoked h) c))) as [n Hn].
      exists (S n). rewrite Hn, handler_invoked. simpl.
      rewrite invoked_app. simpl. now rewrite <- app_assoc.
Qed.

(** *** Contexts no handler has answered yet *)

Lemma ready_new r ps : ready r ps [] (newContext r ps).
Proof. repeat split. Qed.

Lemma ready_running r ps t c : ready r ps t c -> stopped c = false.
Proof. intros (_ & _ & Ha & Hp & _). unfold stopped. now rewrite Ha, Hp. Qed.

Lemma ready_JWTAuth r ps t c role sgnKey who :
  ready r ps t c -> verifyToken role sgnKey r = inr who ->
  ready r ps (t ++ [Invoked (JWTAuthH role sgnKey)])
    (handler (JWTAuthH role sgnKey) (log (Invoked (JWTAuthH role sgnKey)) c)).
Proof.
  intros (Hr & Hps & Ha & Hp & Hs & Hb & Ht) Hv. simpl. unfold JWTAuth.
  simpl. rewrite Hr, Hv. repeat split; simpl; congruence.
Qed.

Lemma ready_cors r ps t c config hdrs :
  ready r ps t c -> cors_decide config r = cors.Pass hdrs ->
  ready r ps (t ++ [Invoked (CorsH config)])
    (handler (CorsH config) (log (Invoked (CorsH config)) c)).
Proof.
  intros (Hr & Hps & Ha & Hp & Hs & Hb & Ht) Hv. simpl. unfold corsMiddleware.
  simpl. rewrite Hr, Hv. repeat split; simpl; congruence.
Qed.

Lemma ready_ValidatePathParam r ps t c name tag :
  ready r ps t c -> validateField (ByName ps name) tag = None ->
  ready r ps (t ++ [Invoked (ValidatePathParamH name tag)])
    (handler (ValidatePathParamH name tag)
       (log (Invoked (ValidatePathParamH name tag)) c)).
Proof.
  intros (Hr & Hps & Ha & Hp & Hs & Hb & Ht) Hv. simpl.
  unfold ValidatePathParam, Param. simpl. rewrite Hps, Hv.
  repeat split; simpl; congruence.
Qed.

Lemma ready_ValidateRegionData r ps t c :
  ready r ps t c ->
  checkRegion (ByName ps providerParam) (ByName ps regionParam) = None ->
  ready r ps (t ++ [Invoked ValidateRegionDataH])
    (handler ValidateRegionDataH (log (Invoked ValidateRegionDataH) c)).
Proof.
  intros (Hr & Hps & Ha & Hp & Hs & Hb & Ht) Hv. simpl.
  unfold ValidateRegionData, Param. simpl. rewrite Hps, Hv.
  repeat split; simpl; congruence.
Qed.

(** Authentication (when enabled) and the CORS middleware let an
    authenticated, non-preflight request through untouched. *)
Lemma front_passes authn r ps :
  cors_contract -> Method r <> "OPTIONS" -> authenticated authn r ->
  ready r ps (Invoked <$> (authChain authn ++ [CorsH getCorsConfig]))
    (Next (authChain authn ++ [CorsH getCorsConfig]) (newContext r ps)).
Proof.
  intros Hcors Hm Hauth.
  destruct (Hcors getCorsConfig r eq_refl Hm) as [hdrs Hpass].
  pose proof (ready_new r ps) as H0.
  destruct authn as [[role sgnKey]|]; simpl authChain.
  - destruct Hauth as [who Hwho].
    pose proof (ready_JWTAuth _ _ _ _ _ _ _ H0 Hwho) as H1.
    pose proof (ready_cors _ _ _ _ _ _ H1 Hpass) as H2.
    simpl app. rewrite Next_cons by reflexivity.
    rewrite Next_cons by (eapply ready_running; eassumption).
    exact H2.
  - pose proof (ready_cors _ _ _ _ _ _ H0 Hpass) as H1.
    simpl app. rewrite Next_cons by reflexivity. exact H1.
Qed.

(** *** The response writer *)

Lemma WriteHeader_status code w : 0 < code -> status (WriteHeader code w) = code.
Proof.
  intros Hpos. unfold WriteHeader.
  destruct (Z.ltb_spec 0 code) as [_|]; [|lia].
  destruct (Z.eqb_spec (status w) code); simpl; congruence.
Qed.

Lemma WriteHeader_frame code w :
  sent (WriteHeader code w) = sent w /\ body (WriteHeader code w) = body w.
Proof. unfold WriteHeader. now destruct (_ && _). Qed.

(** A first [c.JSON(code, obj)] sends [code] and writes [obj]. *)
Lemma JSON_first code obj c :
  0 < code -> bodyAllowedForStatus code = true -> sent (Writer c) = None ->
  response (JSON code obj c) = (Some code, body (Writer c) ++ [obj]).
Proof.
  intros Hpos Hallowed Hsent. unfold response, JSON. rewrite Hallowed.
  simpl. unfold Write, WriteHeaderNow.
  destruct (WriteHeader_frame code (Writer c)) as [Hs Hb].
  rewrite Hs, Hsent. simpl. now rewrite Hb, WriteHeader_status.
Qed.

(** What each guard does to a request it turns away. *)
Lemma JWTAuth_rejects r ps t c role sgnKey reason :
  ready r ps t c -> verifyToken role sgnKey r = inl reason ->
  let c' :=
    handler (JWTAuthH role sgnKey) (log (Invoked (JWTAuthH role sgnKey)) c) in
  stopped c' = true /\ aborted c' = true /\
  trace c' = t ++ [Invoked (JWTAuthH role sgnKey)] /\
  response c' = (Some 401, [PMap reason]).
Proof.
  intros (Hr & Hps & Ha & Hp & Hs & Hb & Ht) Hv. simpl. unfold JWTAuth.
  simpl. rewrite Hr, Hv. unfold AbortWithStatusJSON.
  rewrite JSON_first by (simpl; (lia || easy)).
  unfold stopped. simpl. now rewrite Hb, Ht.
Qed.

Lemma cors_answers r ps t c config code hdrs :
  ready r ps t c -> cors_decide config r = cors.Answer code hdrs ->
  let c' := handler (CorsH config) (log (Invoked (CorsH config)) c) in
  stopped c' = true /\ trace c' = t ++ [Invoked (CorsH config)].
Proof.
  intros (Hr & Hps & Ha & Hp & Hs & Hb & Ht) Hv. simpl. unfold corsMiddleware.
  simpl. rewrite Hr, Hv. unfold stopped. simpl. now rewrite Ht.
Qed.

Lemma ValidatePathParam_rejects r ps t c name tag cause :
  ready r ps t c -> validateField (ByName ps name) tag = Some cause ->
  let c' :=
    handler (ValidatePathParamH name tag)
      (log (Invoked (ValidatePathParamH name tag)) c) in
  stopped c' = true /\ trace c' = t ++ [Invoked (ValidatePathParamH name tag)] /\
  response c' = (Some 400, [validationFailure cause]).
Proof.
  intros (Hr & Hps & Ha & Hp & Hs & Hb & Ht) Hv. simpl.
  unfold ValidatePathParam, Param. simpl. rewrite Hps, Hv.
  unfold AbortWithStatusJSON.
  rewrite JSON_first by (simpl; (lia || easy)).
  unfold stopped. simpl. now rewrite Hb, Ht.
Qed.

Lemma signalStatus_ready r ps t c :
  ready r ps t c ->
  response (signalStatus c) = (Some 200, [PString "ok"]) /\
  trace (signalStatus c) = t.
Proof.
  intros (Hr & Hps & Ha & Hp & Hs & Hb & Ht). unfold signalStatus.
  rewrite JSON_first by (simpl; (lia || easy)).
  simpl. now rewrite Hb, Ht.
Qed.

Lemma ready_log r ps t c e : ready r ps t c -> ready r ps (t ++ [e]) (log e c).
Proof.
  intros (Hr & Hps & Ha & Hp & Hs & Hb & Ht).
  repeat split; simpl; congruence.
Qed.

Lemma elem_of_take_chain (h : HandlerId) n hs : h ∈ take n hs -> h ∈ hs.
Proof.
  intros Hin. rewrite <- (take_drop n hs). apply elem_of_app. now left.
Qed.

(** *** The CORS policy *)

(** C9. The policy [getCorsConfig] builds is the fixed one: all origins
    allowed (so the origin list stays the library default's), the methods
    GET, POST, PUT, DELETE and OPTIONS and no other, the headers Origin,
    Authorization and Content-Type, the exposed header Content-Length,
    credentials allowed and max-age 12; and the middleware built from it is
    on the chain of every route, with or without authentication. *)
Theorem cors_policy_fixed_on_every_route authn env :
  cors.AllowAllOrigins getCorsConfig = true /\
  cors.AllowOrigins getCorsConfig = cors.AllowOrigins cors_DefaultConfig /\
  cors.AllowMethods getCorsConfig ≡ₚ ["GET"; "POST"; "PUT"; "DELETE"; "OPTIONS"] /\
  cors.AllowHeaders getCorsConfig = ["Origin"; "Authorization"; "Content-Type"] /\
  cors.ExposeHeaders getCorsConfig = ["Content-Length"] /\
  cors.AllowCredentials getCorsConfig = true /\
  cors.MaxAge getCorsConfig = 12 /\
  Forall (fun rt => CorsH getCorsConfig ∈ chain rt) (trees (startup authn env)) /\
  CorsH getCorsConfig ∈ Handlers (root (startup authn env)).
Proof.
  repeat split.
  - change (cors.AllowMethods getCorsConfig)
      with (["PUT"; "DELETE"] ++ ["GET"; "POST"] ++ ["OPTIONS"]).
    change (["GET"; "POST"; "PUT"; "DELETE"; "OPTIONS"])
      with (["GET"; "POST"] ++ ["PUT"; "DELETE"] ++ ["OPTIONS"]).
    rewrite !app_assoc. apply Permutation_app_tail, Permutation_app_comm.
  - rewrite startup_trees. unfold statusChain, recommendChain.
    repeat constructor; apply elem_of_app; right; apply list_elem_of_here.
  - destruct authn as [[role sgnKey]|]; simpl.
    + apply list_elem_of_further, list_elem_of_here.
    + apply list_elem_of_here.
Qed.

(** *** The base path *)

(** C8. The base path is the value of TELESCOPES_BASEPATH in the
    environment [ConfigureRoutes] is run in when that value is a non-empty
    string, and "/" when the variable is unset or empty; the patterns of
    both routes are built on that one value. *)
Theorem base_path_from_environment env :
  (forall s, env !! "TELESCOPES_BASEPATH" = Some s -> s <> "" ->
             configuredBasePath env = s) /\
  (env !! "TELESCOPES_BASEPATH" = None \/
   env !! "TELESCOPES_BASEPATH" = Some "" -> configuredBasePath env = "/") /\
  forall authn,
    path <$> trees (startup authn env) =
    [ joinPaths (joinPaths "/" (configuredBasePath env)) "/status";
      joinPaths
        (joinPaths
           (joinPaths (joinPaths "/" (configuredBasePath env)) "/api/v1")
           "/recommender")
        "/:provider/:region/cluster/" ].
Proof.
  unfold configuredBasePath, Getenv. repeat split.
  - intros s Hs Hne. rewrite Hs. simpl.
    destruct (String.eqb_spec s ""); [contradiction|reflexivity].
  - intros [Hs|Hs]; rewrite Hs; reflexivity.
  - intros authn. now rewrite startup_trees.
Qed.

(** *** The status route *)

Lemma authChain_only_JWTAuth authn h :
  h ∈ authChain authn -> exists role sgnKey, h = JWTAuthH role sgnKey.
Proof.
  destruct authn as [[role sgnKey]|]; simpl; intros Hin.
  - apply list_elem_of_singleton in Hin. eauto.
  - now apply elem_of_nil in Hin.
Qed.

Lemma statusChain_split authn :
  statusChain authn = (authChain authn ++ [CorsH getCorsConfig]) ++ [signalStatusH].
Proof. unfold statusChain. now rewrite <- app_assoc. Qed.

(** C2, as the code has it. For every request to GET {basePath}/status no
    business validator runs, and the response is exactly 200 with body "ok"
    when authentication is not enabled or the credential verifies. When
    authentication was enabled on the router before the routes were
    configured, the token check is on the chain of the status route too,
    and a request it rejects gets its 401 and never reaches [signalStatus]. *)
Theorem status_answer authn env r ps :
  cors_contract -> Method r = "GET" ->
  exists c,
    serve (startup authn env) (statusPath env) r ps = Some c /\
    (authenticated authn r ->
       response c = (Some 200, [PString "ok"]) /\
       trace c = Invoked <$> statusChain authn) /\
    (forall role sgnKey reason,
       authn = Some (role, sgnKey) -> verifyToken role sgnKey r = inl reason ->
       response c = (Some 401, [PMap reason]) /\
       trace c = [Invoked (JWTAuthH role sgnKey)]) /\
    (ValidateRegionDataH ∉ invoked (trace c)) /\
    (forall name tag, ValidatePathParamH name tag ∉ invoked (trace c)).
Proof.
  intros Hcors Hm. rewrite serve_status by assumption.
  eexists; split; [reflexivity|]. split; [|split].
  - intros Hauth.
    assert (Hopt : Method r <> "OPTIONS") by (rewrite Hm; discriminate).
    pose proof (front_passes authn r ps Hcors Hopt Hauth) as Hfront.
    rewrite statusChain_split, Next_app.
    rewrite Next_cons by (eapply ready_running; eassumption).
    simpl Next. simpl handler.
    eapply ready_log in Hfront.
    destruct (signalStatus_ready _ _ _ _ Hfront) as [Hresp Htrace].
    rewrite Hresp, Htrace. split; [reflexivity|].
    now rewrite !fmap_app.
  - intros role sgnKey reason -> Hrej.
    destruct (JWTAuth_rejects r ps [] _ role sgnKey reason (ready_new r ps) Hrej)
      as (Hstop & _ & Htrace & Hresp).
    unfold statusChain. simpl authChain. simpl app.
    rewrite Next_cons by reflexivity.
    rewrite Next_stopped by exact Hstop. now split.
  - destruct (Next_invoked_prefix (statusChain authn) (newContext r ps))
      as [n Hn].
    simpl in Hn. rewrite Hn.
    split; [|intros name tag]; intros Hin%elem_of_take_chain;
      unfold statusChain in Hin; apply elem_of_app in Hin as [Hin|Hin];
      try (apply authChain_only_JWTAuth in Hin as (? & ? & ?); discriminate);
      repeat (apply elem_of_cons in Hin as [Hin|Hin]; [discriminate|]);
      now apply elem_of_nil in Hin.
Qed.

(** Enabling authentication after the routes are configured leaves every
    registered chain as it was: the order of a process that wants its
    routes guarded is [EnableAuth], then [ConfigureRoutes]. *)
Lemma EnableAuth_after_ConfigureRoutes env role sgnKey :
  trees (EnableAuth (ConfigureRoutes env New) role sgnKey) =
  trees (ConfigureRoutes env New).
Proof. reflexivity. Qed.

(** *** Authentication on the business route *)

(** C7. With authentication enabled, a request to the business route that
    carries no credential is answered 401 by the token check, which aborts
    the chain: it is the only handler invoked, so no path-parameter, region
    or body validation runs. *)
Theorem recommend_without_credential_is_401 role sgnKey env r ps :
  jwt_contract -> Method r = "POST" -> Credential r = None ->
  exists c reason,
    serve (startup (Some (role, sgnKey)) env) (recommendPath env) r ps = Some c /\
    response c = (Some 401, [PMap reason]) /\
    aborted c = true /\
    trace c = [Invoked (JWTAuthH role sgnKey)].
Proof.
  intros Hjwt Hm Hcred.
  destruct (Hjwt role sgnKey r Hcred) as [reason Hrej].
  rewrite serve_recommend by assumption.
  destruct (JWTAuth_rejects r ps [] _ role sgnKey reason (ready_new r ps) Hrej)
    as (Hstop & Habort & Htrace & Hresp).
  eexists; exists reason. split; [reflexivity|].
  unfold recommendChain. simpl authChain. simpl app.
  rewrite Next_cons by reflexivity.
  rewrite Next_stopped by exact Hstop. auto.
Qed.

(** *** The recommend handler *)

Lemma JSON_sent code obj c k :
  bodyAllowedForStatus code = true -> sent (Writer c) = Some k ->
  response (JSON code obj c) = (Some k, body (Writer c) ++ [obj]).
Proof.
  intros Hallowed Hsent. unfold response, JSON. rewrite Hallowed.
  simpl. unfold Write, WriteHeaderNow.
  destruct (WriteHeader_frame code (Writer c)) as [Hs Hb].
  rewrite Hs, Hsent. simpl. now rewrite Hb, Hs, Hsent.
Qed.

Lemma AbortWithError_sent code err c :
  0 < code -> sent (Writer c) = None ->
  sent (Writer (AbortWithError code err c)) = Some code /\
  body (Writer (AbortWithError code err c)) = body (Writer c).
Proof.
  intros Hpos Hsent. simpl. unfold WriteHeaderNow.
  destruct (WriteHeader_frame code (Writer c)) as [Hs Hb].
  rewrite Hs, Hsent. simpl. now rewrite WriteHeader_status, Hb.
Qed.

Lemma decorated_ready r ps t c : ready r ps t c -> decorated c = wrapperOf ps.
Proof.
  intros (_ & Hps & _). unfold decorated, wrapperOf, Param. now rewrite Hps.
Qed.

(** The body does not bind: gin has sent 400, the handler writes the
    bad_params body and returns before the engine call. *)
Lemma recommendClusterSetup_unbound r ps t c err :
  ready r ps t c -> ShouldBindJSON r (wrapperOf ps) = inl err ->
  response (recommendClusterSetup c) =
    (Some 400, [PMap (gin_H [("code", HString "bad_params");
                             ("message", HString "validation failed");
                             ("cause", HString err)])]) /\
  aborted (recommendClusterSetup c) = true /\
  trace (recommendClusterSetup c) = t ++ [Bound].
Proof.
  intros Hready Hbind. pose proof (decorated_ready _ _ _ _ Hready) as Hdec.
  destruct Hready as (Hr & Hps & Ha & Hp & Hs & Hb & Ht).
  unfold recommendClusterSetup, BindJSON. rewrite Hdec.
  change (Req (log Bound c)) with (Req c). rewrite Hr, Hbind.
  destruct (AbortWithError_sent 400 err (log Bound c)) as [Hs' Hb'];
    [lia|exact Hs|].
  rewrite (JSON_sent _ _ _ 400) by (reflexivity || exact Hs').
  rewrite Hb'. simpl. now rewrite Hb, Ht.
Qed.

(** The body binds: the engine is called once, with the path's provider
    and region and the embedded schema of the bound wrapper, and its
    outcome decides the response. *)
Lemma recommendClusterSetup_bound r ps t c req :
  ready r ps t c -> ShouldBindJSON r (wrapperOf ps) = inr req ->
  trace (recommendClusterSetup c) =
    t ++ [Bound;
          EngineCall (ByName ps providerParam) (ByName ps regionParam)
            (ClusterRecommendationReq req)] /\
  match recommender.RecommendCluster (ByName ps providerParam)
          (ByName ps regionParam) (ClusterRecommendationReq req) with
  | (_, Some err) =>
      response (recommendClusterSetup c) =
        (Some 500, [PMap (gin_H [("status", HInt 500);
                                 ("message", HString (recommender.Error err))])])
  | (Some result, None) =>
      response (recommendClusterSetup c) = (Some 200, [PResult result])
  | (None, None) =>
      panicked (recommendClusterSetup c) = true /\
      response (recommendClusterSetup c) = (None, [])
  end.
Proof.
  intros Hready Hbind. pose proof (decorated_ready _ _ _ _ Hready) as Hdec.
  destruct Hready as (Hr & Hps & Ha & Hp & Hs & Hb & Ht).
  unfold recommendClusterSetup, BindJSON. rewrite Hdec.
  change (Req (log Bound c)) with (Req c). rewrite Hr, Hbind.
  unfold Param. simpl Params. rewrite Hps.
  destruct (recommender.RecommendCluster _ _ _) as [[result|] [err|]].
  - rewrite JSON_first by (simpl; (lia || easy)). simpl.
    now rewrite Ht, Hb, <- app_assoc.
  - rewrite JSON_first by (simpl; (lia || easy)). simpl.
    now rewrite Ht, Hb, <- app_assoc.
  - rewrite JSON_first by (simpl; (lia || easy)). simpl.
    now rewrite Ht, Hb, <- app_assoc.
  - unfold response. simpl. now rewrite Ht, Hb, Hs, <- app_assoc.
Qed.

Lemma recommendChain_split authn :
  recommendChain authn =
  (authChain authn ++ [CorsH getCorsConfig]) ++
  [ValidatePathParamH providerParam "provider"; ValidateRegionDataH;
   recommendClusterSetupH].
Proof. unfold recommendChain. now rewrite <- app_assoc. Qed.

(** A request every guard accepts reaches the handler unanswered, after
    the whole chain was invoked in order. *)
Lemma recommend_reached authn r ps :
  cors_contract -> Method r = "POST" -> authenticated authn r ->
  pathValid ps ->
  exists c0,
    ready r ps (Invoked <$> recommendChain authn) c0 /\
    Next (recommendChain authn) (newContext r ps) = recommendClusterSetup c0.
Proof.
  intros Hcors Hm Hauth [Hprovider Hregion].
  assert (Hopt : Method r <> "OPTIONS") by (rewrite Hm; discriminate).
  pose proof (front_passes authn r ps Hcors Hopt Hauth) as H1.
  pose proof (ready_ValidatePathParam _ _ _ _ _ _ H1 Hprovider) as H2.
  pose proof (ready_ValidateRegionData _ _ _ _ H2 Hregion) as H3.
  pose proof (ready_log _ _ _ _ (Invoked recommendClusterSetupH) H3) as H4.
  eexists. split.
  - rewrite recommendChain_split, !fmap_app. simpl. rewrite !fmap_app in H4.
    simpl in H4. rewrite <- !app_assoc in H4. simpl in H4.
    rewrite <- !app_assoc. exact H4.
  - rewrite recommendChain_split, Next_app.
    rewrite Next_cons by (eapply ready_running; exact H1).
    rewrite Next_cons by (eapply ready_running; exact H2).
    rewrite Next_cons by (eapply ready_running; exact H3).
    reflexivity.
Qed.

Lemma engineCalls_app t1 t2 :
  engineCalls (t1 ++ t2) = engineCalls t1 ++ engineCalls t2.
Proof.
  induction t1 as [|e t1 IH]; [reflexivity|].
  destruct e; simpl; now rewrite IH.
Qed.

Lemma engineCalls_invocations hs : engineCalls (Invoked <$> hs) = [].
Proof. induction hs as [|h hs IH]; [reflexivity|exact IH]. Qed.

Lemma Bound_not_invocation (hs : list HandlerId) : Bound ∉ Invoked <$> hs.
Proof. intros (h & Heq & _)%list_elem_of_fmap. discriminate. Qed.

(** C3. A request that reaches the binder with a body that does not decode,
    or that decodes to a wrapper the field validation refuses, is answered
    400 with code "bad_params", message "validation failed" and the error's
    text as cause; the engine is not called. *)
Theorem unbindable_body_is_400 authn env r ps err :
  cors_contract -> Method r = "POST" -> authenticated authn r ->
  pathValid ps ->
  (Decode (Body r) (wrapperOf ps) = inl err \/
   exists req, Decode (Body r) (wrapperOf ps) = inr req /\
               validateStruct req = Some err) ->
  exists c,
    serve (startup authn env) (recommendPath env) r ps = Some c /\
    response c =
      (Some 400, [PMap (gin_H [("code", HString "bad_params");
                               ("message", HString "validation failed");
                               ("cause", HString err)])]) /\
    trace c = (Invoked <$> recommendChain authn) ++ [Bound] /\
    engineCalls (trace c) = [].
Proof.
  intros Hcors Hm Hauth Hpath Hfail.
  assert (Hbind : ShouldBindJSON r (wrapperOf ps) = inl err).
  { unfold ShouldBindJSON. destruct Hfail as [->|(req & -> & ->)]; reflexivity. }
  destruct (recommend_reached authn r ps Hcors Hm Hauth Hpath)
    as (c0 & Hready & Hrun).
  destruct (recommendClusterSetup_unbound _ _ _ _ _ Hready Hbind)
    as (Hresp & _ & Htrace).
  rewrite serve_recommend by assumption.
  eexists; split; [reflexivity|]. rewrite Hrun. repeat split; try assumption.
  rewrite Htrace, engineCalls_app, engineCalls_invocations. reflexivity.
Qed.

(** C4. A request every guard accepts, whose body binds, and for which
    [RecommendCluster] returns a result and no error, is answered 200 with
    that very result as the only payload. *)
Theorem engine_result_is_200 authn env r ps req result :
  cors_contract -> Method r = "POST" -> authenticated authn r ->
  pathValid ps ->
  ShouldBindJSON r (wrapperOf ps) = inr req ->
  recommender.RecommendCluster (ByName ps providerParam)
    (ByName ps regionParam) (ClusterRecommendationReq req) =
    (Some result, None) ->
  exists c,
    serve (startup authn env) (recommendPath env) r ps = Some c /\
    response c = (Some 200, [PResult result]).
Proof.
  intros Hcors Hm Hauth Hpath Hbind Hengine.
  destruct (recommend_reached authn r ps Hcors Hm Hauth Hpath)
    as (c0 & Hready & Hrun).
  destruct (recommendClusterSetup_bound _ _ _ _ _ Hready Hbind) as [_ Hout].
  rewrite Hengine in Hout.
  rewrite serve_recommend by assumption.
  eexists; split; [reflexivity|]. now rewrite Hrun.
Qed.

(** C5. When [RecommendCluster] returns an error (with or without a result
    next to it), the response is 500 with the body
    [{status: 500, message: <the error's text>}], whatever the error is; the
    engine was called exactly once. *)
Theorem engine_error_is_500 authn env r ps req partial err :
  cors_contract -> Method r = "POST" -> authenticated authn r ->
  pathValid ps ->
  ShouldBindJSON r (wrapperOf ps) = inr req ->
  recommender.RecommendCluster (ByName ps providerParam)
    (ByName ps regionParam) (ClusterRecommendationReq req) =
    (partial, Some err) ->
  exists c,
    serve (startup authn env) (recommendPath env) r ps = Some c /\
    response c =
      (Some 500, [PMap (gin_H [("status", HInt 500);
                               ("message", HString (recommender.Error err))])]) /\
    length (engineCalls (trace c)) = 1%nat.
Proof.
  intros Hcors Hm Hauth Hpath Hbind Hengine.
  destruct (recommend_reached authn r ps Hcors Hm Hauth Hpath)
    as (c0 & Hready & Hrun).
  destruct (recommendClusterSetup_bound _ _ _ _ _ Hready Hbind)
    as [Htrace Hout].
  rewrite Hengine in Hout.
  rewrite serve_recommend by assumption.
  eexists; split; [reflexivity|]. rewrite Hrun. split.
  - now destruct partial.
  - rewrite Htrace, engineCalls_app, engineCalls_invocations. reflexivity.
Qed.

(** C10. Whenever the body binds, the engine is called with the provider
    and the region of the URL path and the embedded schema of the bound
    wrapper, not with the wrapper's [Provider] and [Region], which the body
    may have overwritten: the one call recorded carries the path's values,
    and the response is the handler's answer to what [RecommendCluster]
    returns at exactly those arguments. *)
Theorem engine_gets_path_parameters authn env r ps req :
  cors_contract -> Method r = "POST" -> authenticated authn r ->
  pathValid ps ->
  ShouldBindJSON r (wrapperOf ps) = inr req ->
  exists c,
    serve (startup authn env) (recommendPath env) r ps = Some c /\
    engineCalls (trace c) =
      [(ByName ps providerParam, ByName ps regionParam,
        ClusterRecommendationReq req)] /\
    engineAnswer
      (recommender.RecommendCluster (ByName ps providerParam)
         (ByName ps regionParam) (ClusterRecommendationReq req)) c.
Proof.
  intros Hcors Hm Hauth Hpath Hbind.
  destruct (recommend_reached authn r ps Hcors Hm Hauth Hpath)
    as (c0 & Hready & Hrun).
  destruct (recommendClusterSetup_bound _ _ _ _ _ Hready Hbind)
    as [Htrace Hout].
  rewrite serve_recommend by assumption.
  eexists; split; [reflexivity|]. rewrite Hrun. split.
  - rewrite Htrace, engineCalls_app, engineCalls_invocations. reflexivity.
  - exact Hout.
Qed.

(** *** The order of the guards *)

Lemma provider_rejected_after_auth r ps t c cause :
  ready r ps t c ->
  validateField (ByName ps providerParam) "provider" = Some cause ->
  exists hs,
    trace (Next [CorsH getCorsConfig;
                 ValidatePathParamH providerParam "provider";
                 ValidateRegionDataH; recommendClusterSetupH] c) =
      t ++ (Invoked <$> hs) /\
    Forall (fun h => h = CorsH getCorsConfig \/
                     h = ValidatePathParamH providerParam "provider") hs.
Proof.
  intros Hready Hcause.
  rewrite Next_cons by (eapply ready_running; exact Hready).
  destruct (cors_decide getCorsConfig r) as [hdrs|code hdrs] eqn:Hc.
  - pose proof (ready_cors _ _ _ _ _ _ Hready Hc) as H1.
    rewrite Next_cons by (eapply ready_running; exact H1).
    destruct (ValidatePathParam_rejects _ _ _ _ _ _ _ H1 Hcause)
      as (Hstop & Htrace & _).
    rewrite Next_stopped by exact Hstop. rewrite Htrace.
    exists [CorsH getCorsConfig; ValidatePathParamH providerParam "provider"].
    split; [now rewrite <- app_assoc|].
    apply Forall_cons; split; [now left|].
    apply Forall_cons; split; [now right|]. apply Forall_nil_2.
  - destruct (cors_answers _ _ _ _ _ _ _ Hready Hc) as [Hstop Htrace].
    rewrite Next_stopped by exact Hstop. rewrite Htrace.
    exists [CorsH getCorsConfig]. split; [reflexivity|].
    apply Forall_cons; split; [now left|]. apply Forall_nil_2.
Qed.

(** When the provider parameter fails validation, the trace holds nothing
    but invocations of the token check, the CORS middleware and the
    provider validator. *)
Lemma provider_rejected_trace authn r ps cause :
  validateField (ByName ps providerParam) "provider" = Some cause ->
  exists hs,
    trace (Next (recommendChain authn) (newContext r ps)) = Invoked <$> hs /\
    Forall (fun h => h ∈ authChain authn \/ h = CorsH getCorsConfig \/
                     h = ValidatePathParamH providerParam "provider") hs.
Proof.
  intros Hcause. pose proof (ready_new r ps) as H0.
  unfold recommendChain. destruct authn as [[role sgnKey]|]; simpl authChain.
  - simpl app. rewrite Next_cons by reflexivity.
    destruct (verifyToken role sgnKey r) as [reason|who] eqn:Hv.
    + destruct (JWTAuth_rejects _ _ _ _ _ _ _ H0 Hv) as (Hstop & _ & Htrace & _).
      rewrite Next_stopped by exact Hstop. rewrite Htrace.
      exists [JWTAuthH role sgnKey]. split; [reflexivity|].
      apply Forall_cons; split; [|apply Forall_nil_2].
      left. apply list_elem_of_here.
    + pose proof (ready_JWTAuth _ _ _ _ _ _ _ H0 Hv) as H1.
      destruct (provider_rejected_after_auth _ _ _ _ _ H1 Hcause)
        as (hs & Htrace & Hhs).
      rewrite Htrace. exists (JWTAuthH role sgnKey :: hs).
      split; [reflexivity|]. apply Forall_cons; split.
      * left. apply list_elem_of_here.
      * eapply Forall_impl; [exact Hhs|]. simpl. tauto.
  - destruct (provider_rejected_after_auth _ _ _ _ _ H0 Hcause)
      as (hs & Htrace & Hhs).
    simpl app. rewrite Htrace. exists hs. split; [reflexivity|].
    eapply Forall_impl; [exact Hhs|]. simpl. tauto.
Qed.

(** C6. The chain of the business route is, in this order: the token check
    (if authentication is enabled), the CORS middleware, the provider
    validator, the region validator, the handler that binds the body. The
    handlers a request sees invoked are always an initial segment of that
    chain, so the region validator never runs before the provider
    validator; and for a request whose provider fails validation the region
    validator and the handler are not invoked, the body is not bound and the
    engine is not called. *)
Theorem provider_validated_before_region authn env r ps :
  Method r = "POST" ->
  exists c,
    serve (startup authn env) (recommendPath env) r ps = Some c /\
    lookupRoute (startup authn env) "POST" (recommendPath env) =
      Some {| method := "POST"; path := recommendPath env;
              chain := authChain authn ++
                       [CorsH getCorsConfig;
                        ValidatePathParamH providerParam "provider";
                        ValidateRegionDataH; recommendClusterSetupH] |} /\
    (exists n, invoked (trace c) = take n (recommendChain authn)) /\
    (forall cause,
       validateField (ByName ps providerParam) "provider" = Some cause ->
       (ValidateRegionDataH ∉ invoked (trace c)) /\
       (recommendClusterSetupH ∉ invoked (trace c)) /\
       (Bound ∉ trace c) /\
       engineCalls (trace c) = []).
Proof.
  intros Hm. rewrite serve_recommend by assumption.
  eexists; split; [reflexivity|]. split; [apply lookup_recommend|]. split.
  - destruct (Next_invoked_prefix (recommendChain authn) (newContext r ps))
      as [n Hn].
    exists n. exact Hn.
  - intros cause Hcause.
    destruct (provider_rejected_trace authn r ps cause Hcause)
      as (hs & -> & Hhs).
    rewrite invoked_fmap, engineCalls_invocations.
    rewrite Forall_forall in Hhs.
    repeat split; try apply Bound_not_invocation;
      intros [Hin|[?|?]]%Hhs; try discriminate;
      apply authChain_only_JWTAuth in Hin as (? & ? & ?); discriminate.
Qed.

(** *** The wrapper's path-derived fields *)

Lemma decodeMember_keeps key v req req' :
  decodeMember key v req = inr req' ->
  (json.equalFold key "Provider" = false -> Provider req' = Provider req) /\
  (json.equalFold key "Region" = false -> Region req' = Region req).
Proof.
  unfold decodeMember.
  destruct (json.equalFold key "Provider") eqn:HP.
  - destruct (decodeString _ _ _); [discriminate|].
    intros [= <-]. simpl. split; [discriminate|reflexivity].
  - destruct (json.equalFold key "Region") eqn:HR.
    + destruct (decodeString _ _ _); [discriminate|].
      intros [= <-]. simpl. split; [reflexivity|discriminate].
    + destruct (decodeReqField _ _ _); [discriminate|].
      intros [= <-]. simpl. split; reflexivity.
Qed.

Lemma decodeMembers_keeps members req req' :
  decodeMembers members req = inr req' ->
  (existsb (fun m => json.equalFold (fst m) "Provider") members = false ->
   Provider req' = Provider req) /\
  (existsb (fun m => json.equalFold (fst m) "Region") members = false ->
   Region req' = Region req).
Proof.
  revert req. induction members as [|[key v] members IH]; intros req; simpl.
  - intros [= <-]. split; reflexivity.
  - destruct (decodeMember key v req) as [err|req1] eqn:Hm; [discriminate|].
    intros Hrest. destruct (IH _ Hrest) as [IHp IHr].
    destruct (decodeMember_keeps _ _ _ _ Hm) as [Hp Hr].
    split; intros [Hk Hms]%orb_false_elim.
    + now rewrite IHp, Hp.
    + now rewrite IHr, Hr.
Qed.

(** X10. The wrapper is built with the provider and the region of the URL
    path, and the body is then decoded onto the whole wrapper, its own two
    fields included: on a successful bind, [Provider] (resp. [Region]) is
    the path's value whenever the body has no member whose key matches that
    field's name, case ignored. *)
Theorem wrapper_keeps_unmentioned_path_fields r ps req :
  ShouldBindJSON r (wrapperOf ps) = inr req ->
  (mentions "Provider" (Body r) = false ->
   Provider req = ByName ps providerParam) /\
  (mentions "Region" (Body r) = false ->
   Region req = ByName ps regionParam).
Proof.
  unfold ShouldBindJSON.
  destruct (Decode (Body r) (wrapperOf ps)) as [err|req0] eqn:Hd;
    [discriminate|].
  destruct (validateStruct req0); [discriminate|]. intros [= <-].
  destruct (Body r) as [err|v]; [discriminate|].
  destruct v; simpl in Hd; try discriminate.
  - injection Hd as <-. split; reflexivity.
  - apply decodeMembers_keeps in Hd. exact Hd.
Qed.

End Properties.

(** ** Further properties of the pipeline *)

Section Coverage.
Context `{Eng : recommender.Engine} `{Col : !Collaborators}.

(** *** What the guards leave alone *)

(** Every handler but [recommendClusterSetup] logs nothing and leaves the
    request and its path parameters as they are. *)
Lemma guard_frame h c :
  h <> recommendClusterSetupH ->
  trace (handler h c) = trace c /\ Req (handler h c) = Req c /\
  Params (handler h c) = Params c.
Proof.
  intros Hh. destruct h; simpl.
  - unfold JWTAuth. now destruct (verifyToken _ _ _).
  - unfold corsMiddleware. now destruct (cors_decide _ _).
  - unfold ValidatePathParam. now destruct (validateField _ _).
  - unfold ValidateRegionData. now destruct (checkRegion _ _).
  - easy.
  - contradiction.
Qed.

Lemma Next_guards_frame hs c :
  recommendClusterSetupH ∉ hs ->
  (exists n, trace (Next hs c) = trace c ++ (Invoked <$> take n hs)) /\
  Req (Next hs c) = Req c /\ Params (Next hs c) = Params c.
Proof.
  revert c. induction hs as [|h hs IH]; intros c Hnot.
  - split; [|easy]. exists 0%nat. simpl. now rewrite app_nil_r.
  - simpl. destruct (stopped c).
    + split; [|easy]. exists 0%nat. simpl. now rewrite app_nil_r.
    + apply not_elem_of_cons in Hnot as [Hh Hhs].
      destruct (guard_frame h (log (Invoked h) c)) as (Ht & Hr & Hp);
        [congruence|].
      destruct (IH (handler h (log (Invoked h) c)) Hhs) as ([n Hn] & Hr' & Hp').
      split; [|split].
      * exists (S n). rewrite Hn, Ht. simpl. now rewrite <- app_assoc.
      * now rewrite Hr', Hr.
      * now rewrite Hp', Hp.
Qed.

(** What the handler adds to the trace, whatever the writer holds: the
    binding, and one engine call when the body binds. *)
Lemma recommendClusterSetup_trace c :
  trace (recommendClusterSetup c) =
  trace c ++
  Bound ::
  match ShouldBindJSON (Req c) (decorated c) with
  | inl _ => []
  | inr req =>
      [EngineCall (Param c providerParam) (Param c regionParam)
         (ClusterRecommendationReq req)]
  end.
Proof.
  unfold recommendClusterSetup, BindJSON.
  change (Req (log Bound c)) with (Req c).
  destruct (ShouldBindJSON (Req c) (decorated c)) as [err|req]; [reflexivity|].
  destruct (recommender.RecommendCluster _ _ _) as [[result|] [err|]];
    simpl; now rewrite <- app_assoc.
Qed.

Lemma guards_without_handler authn :
  recommendClusterSetupH ∉
    authChain authn ++
    [CorsH getCorsConfig; ValidatePathParamH providerParam "provider";
     ValidateRegionDataH].
Proof.
  intros [Hin|Hin]%elem_of_app.
  - apply authChain_only_JWTAuth in Hin as (? & ? & ?). discriminate.
  - repeat (apply elem_of_cons in Hin as [Hin|Hin]; [discriminate|]).
    now apply elem_of_nil in Hin.
Qed.

Lemma recommendChain_guards authn :
  recommendChain authn =
  (authChain authn ++
   [CorsH getCorsConfig; ValidatePathParamH providerParam "provider";
    ValidateRegionDataH]) ++ [recommendClusterSetupH].
Proof. unfold recommendChain. now rewrite <- app_assoc. Qed.

(** The engine calls of a request on the business route: none, or the one
    call on the bound body. *)
Lemma recommend_engine_calls authn r ps :
  engineCalls (trace (Next (recommendChain authn) (newContext r ps))) = [] \/
  exists req,
    ShouldBindJSON r (wrapperOf ps) = inr req /\
    engineCalls (trace (Next (recommendChain authn) (newContext r ps))) =
      [(ByName ps providerParam, ByName ps regionParam,
        ClusterRecommendationReq req)].
Proof.
  rewrite recommendChain_guards, Next_app.
  destruct (Next_guards_frame _ (newContext r ps) (guards_without_handler authn))
    as ([n Hn] & Hr & Hp).
  set (c2 := Next _ (newContext r ps)) in *. simpl in Hn, Hr, Hp.
  simpl Next. destruct (stopped c2).
  - left. rewrite Hn. apply engineCalls_invocations.
  - simpl handler. rewrite recommendClusterSetup_trace.
    change (Req (log _ c2)) with (Req c2).
    replace (decorated (log (Invoked recommendClusterSetupH) c2))
      with (wrapperOf ps)
      by (unfold decorated, wrapperOf, Param; simpl; now rewrite Hp).
    unfold Param. simpl Params. rewrite Hr, Hp. simpl trace. rewrite Hn.
    destruct (ShouldBindJSON r (wrapperOf ps)) as [err|req]; [left|right].
    + rewrite !engineCalls_app, engineCalls_invocations. reflexivity.
    + exists req. split; [reflexivity|].
      rewrite !engineCalls_app, engineCalls_invocations. reflexivity.
Qed.

Lemma guard_ready_or_stopped r ps t c h :
  h <> recommendClusterSetupH -> h <> signalStatusH -> ready r ps t c ->
  stopped (handler h (log (Invoked h) c)) = true \/
  ready r ps (t ++ [Invoked h]) (handler h (log (Invoked h) c)).
Proof.
  intros Hh Hs Hready. destruct h; try contradiction.
  - destruct (verifyToken role sgnKey r) as [reason|who] eqn:Hv.
    + left. now destruct (JWTAuth_rejects _ _ _ _ _ _ _ Hready Hv) as (? & _).
    + right. eapply ready_JWTAuth; eassumption.
  - destruct (cors_decide config r) as [hdrs|code hdrs] eqn:Hc.
    + right. eapply ready_cors; eassumption.
    + left. now destruct (cors_answers _ _ _ _ _ _ _ Hready Hc).
  - destruct (validateField (ByName ps name) tag) as [cause|] eqn:Hv.
    + left.
      now destruct (ValidatePathParam_rejects _ _ _ _ _ _ _ Hready Hv) as (? & _).
    + right. now apply ready_ValidatePathParam.
  - destruct (checkRegion (ByName ps providerParam) (ByName ps regionParam))
      as [cause|] eqn:Hv.
    + left. destruct Hready as (_ & Hps & _). simpl.
      unfold ValidateRegionData, Param. simpl. now rewrite Hps, Hv.
    + right. now apply ready_ValidateRegionData.
Qed.

(** A chain of guards either stops or hands on a context nobody answered. *)
Lemma Next_guards_ready_or_stopped r ps hs :
  Forall (fun h => h <> recommendClusterSetupH /\ h <> signalStatusH) hs ->
  forall t c,
    ready r ps t c ->
    stopped (Next hs c) = true \/
    ready r ps (t ++ (Invoked <$> hs)) (Next hs c).
Proof.
  induction 1 as [|h hs [Hh Hs] _ IH]; intros t c Hready.
  - right. simpl. now rewrite app_nil_r.
  - rewrite Next_cons by (eapply ready_running; exact Hready).
    destruct (guard_ready_or_stopped _ _ _ _ h Hh Hs Hready) as [Hstop|Hnext].
    + left. now rewrite Next_stopped.
    + destruct (IH _ _ Hnext) as [Hstop|Hdone]; [now left|right].
      simpl. now rewrite <- app_assoc in Hdone.
Qed.

Lemma guards_are_guards authn :
  Forall (fun h => h <> recommendClusterSetupH /\ h <> signalStatusH)
    (authChain authn ++
     [CorsH getCorsConfig; ValidatePathParamH providerParam "provider";
      ValidateRegionDataH]).
Proof.
  apply Forall_app. split.
  - apply Forall_forall. intros h (? & ? & ->)%authChain_only_JWTAuth.
    split; discriminate.
  - repeat (apply Forall_cons; split; [split; discriminate|]).
    apply Forall_nil_2.
Qed.

(** Guards that come out running after the token check: it accepted. *)
Lemma running_implies_authenticated authn r ps hs :
  stopped (Next (authChain authn ++ hs) (newContext r ps)) = false ->
  authenticated authn r.
Proof.
  destruct authn as [[role sgnKey]|]; [|easy].
  simpl authChain. simpl app. simpl authenticated.
  destruct (verifyToken role sgnKey r) as [reason|who] eqn:Hv; [|eauto].
  destruct (JWTAuth_rejects r ps [] _ role sgnKey reason (ready_new r ps) Hv)
    as (Hstop & _).
  rewrite Next_cons by reflexivity. rewrite Next_stopped by exact Hstop.
  congruence.
Qed.

(** X1. On the business route the engine is called at most once, and only
    when the token check (if authentication is enabled) accepted the request
    and the body bound. The call is then made on the provider and the region
    of the path and the embedded schema of the bound wrapper: the one call
    recorded carries them, and the response is the handler's answer to what
    [RecommendCluster] returns at exactly those arguments. No hypothesis is
    made on the credential, the parameters or the body. *)
Theorem engine_called_only_when_bound authn env r ps c :
  Method r = "POST" ->
  serve (startup authn env) (recommendPath env) r ps = Some c ->
  engineCalls (trace c) = [] \/
  (authenticated authn r /\
   exists req,
     ShouldBindJSON r (wrapperOf ps) = inr req /\
     engineCalls (trace c) =
       [(ByName ps providerParam, ByName ps regionParam,
         ClusterRecommendationReq req)] /\
     engineAnswer
       (recommender.RecommendCluster (ByName ps providerParam)
          (ByName ps regionParam) (ClusterRecommendationReq req)) c).
Proof.
  intros Hm. rewrite serve_recommend by assumption. intros [= <-].
  rewrite recommendChain_guards, Next_app.
  destruct (Next_guards_frame _ (newContext r ps) (guards_without_handler authn))
    as ([n Hn] & _).
  destruct (Next_guards_ready_or_stopped r ps _ (guards_are_guards authn)
              [] _ (ready_new r ps)) as [Hstop|Hready].
  - left. rewrite Next_stopped by exact Hstop. rewrite Hn. simpl.
    apply engineCalls_invocations.
  - pose proof (ready_running _ _ _ _ Hready) as Hrun.
    pose proof (running_implies_authenticated _ _ _ _ Hrun) as Hauth.
    rewrite Next_cons by exact Hrun. simpl Next. simpl handler.
    pose proof (ready_log _ _ _ _ (Invoked recommendClusterSetupH) Hready)
      as Hentry.
    destruct (ShouldBindJSON r (wrapperOf ps)) as [err|req] eqn:Hbind.
    + left.
      destruct (recommendClusterSetup_unbound _ _ _ _ _ Hentry Hbind)
        as (_ & _ & Htrace).
      rewrite Htrace, !engineCalls_app, engineCalls_invocations. reflexivity.
    + right. split; [exact Hauth|]. exists req. split; [reflexivity|].
      destruct (recommendClusterSetup_bound _ _ _ _ _ Hentry Hbind)
        as [Htrace Hout].
      split; [|exact Hout].
      rewrite Htrace, !engineCalls_app, engineCalls_invocations. reflexivity.
Qed.

(** X2. On the status route the body is never bound and the engine is never
    called, whatever the request and the authentication setting. *)
Theorem status_never_reaches_engine authn env r ps c :
  Method r = "GET" ->
  serve (startup authn env) (statusPath env) r ps = Some c ->
  engineCalls (trace c) = [] /\ (Bound ∉ trace c).
Proof.
  intros Hm. rewrite serve_status by assumption. intros [= <-].
  assert (Hnot : recommendClusterSetupH ∉ statusChain authn).
  { unfold statusChain. intros [Hin|Hin]%elem_of_app.
    - apply authChain_only_JWTAuth in Hin as (? & ? & ?). discriminate.
    - repeat (apply elem_of_cons in Hin as [Hin|Hin]; [discriminate|]).
      now apply elem_of_nil in Hin. }
  destruct (Next_guards_frame _ (newContext r ps) Hnot) as ([n Hn] & _).
  simpl in Hn. rewrite Hn. split.
  - apply engineCalls_invocations.
  - apply Bound_not_invocation.
Qed.

(** *** The handler runs last *)

(** A chain of guards that comes out running has invoked every guard. *)
Lemma Next_guards_all_ran hs c :
  recommendClusterSetupH ∉ hs -> stopped (Next hs c) = false ->
  trace (Next hs c) = trace c ++ (Invoked <$> hs).
Proof.
  revert c. induction hs as [|h hs IH]; intros c Hnot Hrun.
  - simpl. now rewrite app_nil_r.
  - simpl in *. destruct (stopped c) eqn:Hc; [congruence|].
    apply not_elem_of_cons in Hnot as [Hh Hhs].
    destruct (guard_frame h (log (Invoked h) c)) as (Ht & _); [congruence|].
    rewrite (IH _ Hhs Hrun), Ht. simpl. now rewrite <- app_assoc.
Qed.

(** X9. The engine is called only at the end of the whole chain: when a
    request sees an engine call, every handler of the business chain was
    invoked, each once and in the order [ConfigureRoutes] registered them,
    and no guard had aborted. *)
Theorem engine_call_after_whole_chain authn env r ps c :
  Method r = "POST" ->
  serve (startup authn env) (recommendPath env) r ps = Some c ->
  engineCalls (trace c) <> [] ->
  invoked (trace c) = recommendChain authn.
Proof.
  intros Hm. rewrite serve_recommend by assumption. intros [= <-].
  rewrite recommendChain_guards, Next_app.
  pose proof (guards_without_handler authn) as Hnot.
  destruct (Next_guards_frame _ (newContext r ps) Hnot) as ([n Hn] & _).
  pose proof (Next_guards_all_ran _ (newContext r ps) Hnot) as Hall.
  set (c2 := Next _ (newContext r ps)) in *. simpl in Hn, Hall.
  simpl Next. destruct (stopped c2).
  - rewrite Hn, engineCalls_invocations. congruence.
  - intros _. simpl handler. rewrite recommendClusterSetup_trace.
    simpl trace. rewrite (Hall eq_refl), !invoked_app, invoked_fmap.
    simpl. destruct (ShouldBindJSON _ _); simpl; now rewrite app_nil_r.
Qed.

(** *** Enabling authentication *)

Lemma sameAnswer_response c1 c2 : sameAnswer c1 c2 -> response c1 = response c2.
Proof. intros (_ & _ & Hw & _). unfold response. now rewrite Hw. Qed.

Lemma sameAnswer_log e1 e2 c1 c2 :
  sameAnswer c1 c2 -> sameAnswer (log e1 c1) (log e2 c2).
Proof. intros (? & ? & ? & ? & ? & ?). repeat split; assumption. Qed.

(** No handler reads the identity or the trace. *)
Lemma sameAnswer_handler h c1 c2 :
  sameAnswer c1 c2 -> sameAnswer (handler h c1) (handler h c2).
Proof.
  destruct c1 as [r1 ps1 w1 a1 e1 i1 p1 t1], c2 as [r2 ps2 w2 a2 e2 i2 p2 t2].
  unfold sameAnswer. simpl. intros (-> & -> & -> & -> & -> & ->).
  destruct h; simpl.
  - unfold JWTAuth. simpl. destruct (verifyToken _ _ _); now repeat split.
  - unfold corsMiddleware. simpl. destruct (cors_decide _ _); now repeat split.
  - unfold ValidatePathParam, Param. simpl.
    destruct (validateField _ _); now repeat split.
  - unfold ValidateRegionData, Param. simpl.
    destruct (checkRegion _ _); now repeat split.
  - now repeat split.
  - unfold recommendClusterSetup, BindJSON, decorated, Param. simpl.
    destruct (ShouldBindJSON _ _) as [err|req]; [now repeat split|].
    destruct (recommender.RecommendCluster _ _ _) as [[result|] [err|]];
      now repeat split.
Qed.

Lemma sameAnswer_Next hs c1 c2 :
  sameAnswer c1 c2 -> sameAnswer (Next hs c1) (Next hs c2).
Proof.
  revert c1 c2. induction hs as [|h hs IH]; intros c1 c2 Hsame; [exact Hsame|].
  simpl. assert (Hstop : stopped c1 = stopped c2).
  { destruct Hsame as (_ & _ & _ & Ha & Hp & _). unfold stopped.
    now rewrite Ha, Hp. }
  rewrite Hstop. destruct (stopped c2); [exact Hsame|].
  apply IH, sameAnswer_handler, sameAnswer_log, Hsame.
Qed.

(** X4. A request the token check accepts gets, on every route, the very
    response it gets from a router on which authentication was never
    enabled: an accepted check only attaches the identity. *)
Theorem accepted_token_is_transparent role sgnKey env pattern r ps who :
  verifyToken role sgnKey r = inr who ->
  response <$> serve (startup (Some (role, sgnKey)) env) pattern r ps =
  response <$> serve (startup None env) pattern r ps.
Proof.
  intros Hv.
  assert (Hskip : forall hs,
    response (Next (JWTAuthH role sgnKey :: hs) (newContext r ps)) =
    response (Next hs (newContext r ps))).
  { intros hs. rewrite Next_cons by reflexivity.
    apply sameAnswer_response, sameAnswer_Next.
    simpl. unfold JWTAuth. simpl. rewrite Hv. now repeat split. }
  unfold serve, lookupRoute. rewrite !startup_trees.
  cbn [find method path].
  destruct (String.eqb "GET" (Method r) && String.eqb (statusPath env) pattern).
  - cbn [chain fmap option_fmap option_map]. f_equal. apply Hskip.
  - destruct (String.eqb "POST" (Method r)
              && String.eqb (recommendPath env) pattern); [|reflexivity].
    cbn [chain fmap option_fmap option_map]. f_equal. apply Hskip.
Qed.

(** X5. Enabling authentication after the routes are configured guards
    nothing: whatever credential the request carries or lacks, the token
    check is not invoked, and a request the validators accept and whose body
    binds reaches the engine. *)
Theorem late_EnableAuth_guards_nothing env role sgnKey r ps req :
  cors_contract -> Method r = "POST" -> pathValid ps ->
  ShouldBindJSON r (wrapperOf ps) = inr req ->
  exists c,
    serve (EnableAuth (ConfigureRoutes env New) role sgnKey)
      (recommendPath env) r ps = Some c /\
    (JWTAuthH role sgnKey ∉ invoked (trace c)) /\
    engineCalls (trace c) =
      [(ByName ps providerParam, ByName ps regionParam,
        ClusterRecommendationReq req)].
Proof.
  intros Hcors Hm Hpath Hbind.
  change (serve (EnableAuth (ConfigureRoutes env New) role sgnKey)
            (recommendPath env) r ps)
    with (serve (startup None env) (recommendPath env) r ps).
  destruct (recommend_reached None r ps Hcors Hm I Hpath)
    as (c0 & Hready & Hrun).
  destruct (recommendClusterSetup_bound _ _ _ _ _ Hready Hbind)
    as [Htrace _].
  rewrite serve_recommend by assumption.
  eexists; split; [reflexivity|]. rewrite Hrun, Htrace. split.
  - rewrite invoked_app, invoked_fmap. unfold recommendChain. simpl.
    intros Hin.
    repeat (apply elem_of_cons in Hin as [Hin|Hin]; [discriminate|]).
    now apply elem_of_nil in Hin.
  - rewrite engineCalls_app, engineCalls_invocations. reflexivity.
Qed.

(** *** The handler's edge *)

(** X6. When [RecommendCluster] returns neither a result nor an error, the
    handler dereferences the nil result: it panics after the engine call,
    with no header sent and no payload written. *)
Theorem engine_nil_nil_panics authn env r ps req :
  cors_contract -> Method r = "POST" -> authenticated authn r ->
  pathValid ps ->
  ShouldBindJSON r (wrapperOf ps) = inr req ->
  recommender.RecommendCluster (ByName ps providerParam)
    (ByName ps regionParam) (ClusterRecommendationReq req) = (None, None) ->
  exists c,
    serve (startup authn env) (recommendPath env) r ps = Some c /\
    panicked c = true /\ response c = (None, []) /\
    length (engineCalls (trace c)) = 1%nat.
Proof.
  intros Hcors Hm Hauth Hpath Hbind Hengine.
  destruct (recommend_reached authn r ps Hcors Hm Hauth Hpath)
    as (c0 & Hready & Hrun).
  destruct (recommendClusterSetup_bound _ _ _ _ _ Hready Hbind)
    as [Htrace Hout].
  rewrite Hengine in Hout. destruct Hout as [Hpanic Hresp].
  rewrite serve_recommend by assumption.
  eexists; split; [reflexivity|]. rewrite Hrun. repeat split; try assumption.
  rewrite Htrace, engineCalls_app, engineCalls_invocations. reflexivity.
Qed.

(** *** Decoding onto the wrapper *)

Lemma decodeMember_schema key v req1 req2 :
  ClusterRecommendationReq req1 = ClusterRecommendationReq req2 ->
  match decodeMember key v req1, decodeMember key v req2 with
  | inl e1, inl e2 => e1 = e2
  | inr a, inr b => ClusterRecommendationReq a = ClusterRecommendationReq b
  | _, _ => False
  end.
Proof.
  intros Hsame. unfold decodeMember.
  destruct (json.equalFold key "Provider").
  - destruct v; simpl; auto.
  - destruct (json.equalFold key "Region").
    + destruct v; simpl; auto.
    + rewrite Hsame. now destruct (decodeReqField _ _ _).
Qed.

Lemma decodeMembers_schema members req1 req2 :
  ClusterRecommendationReq req1 = ClusterRecommendationReq req2 ->
  match decodeMembers members req1, decodeMembers members req2 with
  | inl e1, inl e2 => e1 = e2
  | inr a, inr b => ClusterRecommendationReq a = ClusterRecommendationReq b
  | _, _ => False
  end.
Proof.
  revert req1 req2.
  induction members as [|[key v] members IH]; intros req1 req2 Hsame; simpl.
  - exact Hsame.
  - pose proof (decodeMember_schema key v req1 req2 Hsame) as Hm.
    destruct (decodeMember key v req1), (decodeMember key v req2);
      try contradiction; [exact Hm|apply IH, Hm].
Qed.

(** X7. What a body decodes to in the embedded schema, and the error of a
    body that does not decode, do not depend on the path: the provider and
    the region of the URL reach the engine's request argument in no way. *)
Theorem decoded_schema_independent_of_path d ps1 ps2 :
  match Decode d (wrapperOf ps1), Decode d (wrapperOf ps2) with
  | inl e1, inl e2 => e1 = e2
  | inr req1, inr req2 =>
      ClusterRecommendationReq req1 = ClusterRecommendationReq req2
  | _, _ => False
  end.
Proof.
  destruct d as [err|v]; [reflexivity|].
  destruct v; simpl; try reflexivity.
  now apply decodeMembers_schema.
Qed.

Lemma decodeMembers_app members m req :
  decodeMembers (members ++ [m]) req =
  match decodeMembers members req with
  | inl err => inl err
  | inr req' => decodeMember m.1 m.2 req'
  end.
Proof.
  revert req. induction members as [|[key v] members IH]; intros req; simpl.
  - destruct m as [key v]. simpl. now destruct (decodeMember key v req).
  - destruct (decodeMember key v req); [reflexivity|apply IH].
Qed.

Lemma equalFold_Region_not_Provider key :
  json.equalFold key "Region" = true -> json.equalFold key "Provider" = false.
Proof.
  unfold json.equalFold. intros Hr%String.eqb_eq. now rewrite Hr.
Qed.

(** X8. When the body is an object whose last member is a string under a
    key that matches Provider (resp. Region), case ignored, a successful
    bind leaves that string in the wrapper's field: the body's value
    replaces the path's. *)
Theorem last_body_member_sets_wrapper_field r ps members key s req :
  Body r = json.Document (json.Object (members ++ [(key, json.String s)])) ->
  ShouldBindJSON r (wrapperOf ps) = inr req ->
  (json.equalFold key "Provider" = true -> Provider req = s) /\
  (json.equalFold key "Region" = true -> Region req = s).
Proof.
  intros Hbody. unfold ShouldBindJSON. rewrite Hbody. simpl.
  rewrite decodeMembers_app.
  destruct (decodeMembers members (wrapperOf ps)) as [err|req0];
    [discriminate|].
  simpl. unfold decodeMember. intros Hbind. split; intros Hkey.
  - rewrite Hkey in Hbind. simpl in Hbind.
    destruct (validateStruct _); [discriminate|]. now injection Hbind as <-.
  - rewrite (equalFold_Region_not_Provider _ Hkey), Hkey in Hbind.
    simpl in Hbind.
    destruct (validateStruct _); [discriminate|]. now injection Hbind as <-.
Qed.

End Coverage.

(** ** The statements on the sample deployment *)

#[local] Existing Instance Sample.engine.
#[local] Existing Instance Sample.collaborators.

Lemma sample_cors_contract : @cors_contract Sample.engine Sample.collaborators.
Proof.
  intros config r Hall Hm. simpl. unfold Sample.decide_cors.
  destruct (Header r !! "Origin") as [origin|]; [|eauto].
  rewrite Hall. simpl.
  destruct (String.eqb_spec (Method r) "OPTIONS"); [contradiction|eauto].
Qed.

Lemma sample_jwt_contract : @jwt_contract Sample.engine Sample.collaborators.
Proof.
  intros role sgnKey r Hcred. simpl. unfold Sample.verifyToken.
  rewrite Hcred. eauto.
Qed.

(** The body of [Sample.conflicting] binds, and the wrapper's provider is
    the body's "google", not the path's "amazon". *)
Example conflicting_body_binds :
  @ShouldBindJSON Sample.engine Sample.collaborators
    (Sample.request "POST" None (json.Document Sample.conflicting))
    (@wrapperOf Sample.engine Sample.params) = inr Sample.overridden.
Proof. reflexivity. Qed.

(** The invariant fails on the code: on the path [amazon/eu-west-1], the
    body [{sumCpu: 8, provider: "google"}] binds to a wrapper whose
    [Provider] is "google". *)
Lemma body_provider_overrides_path :
  ~ @pathFieldsKept Sample.engine Sample.collaborators
      (Sample.request "POST" None (json.Document Sample.conflicting))
      Sample.params.
Proof.
  intros Hkept.
  destruct (Hkept Sample.overridden eq_refl) as [Hprovider _].
  discriminate Hprovider.
Qed.

(** C1, the code at the failing input. On the path [amazon/eu-west-1] the
    body [{sumCpu: 8, provider: "google"}] binds: the wrapper, which the
    source builds "for passing provider/zone info to the validator", reaches
    the binding validator with [Provider] "google", not the path's "amazon",
    so the invariant does not hold; the engine call of the same handler is
    made on the path's "amazon" and the response is its answer for
    "amazon". *)
Theorem conflicting_body_splits_validator_from_engine :
  ShouldBindJSON
    (Sample.request "POST" None (json.Document Sample.conflicting))
    (wrapperOf Sample.params) = inr Sample.overridden /\
  Provider Sample.overridden = "google" /\
  ByName Sample.params providerParam = "amazon" /\
  ~ pathFieldsKept
      (Sample.request "POST" None (json.Document Sample.conflicting))
      Sample.params /\
  exists c,
    serve (startup None ∅) (recommendPath ∅)
      (Sample.request "POST" None (json.Document Sample.conflicting))
      Sample.params = Some c /\
    engineCalls (trace c) =
      [("amazon", "eu-west-1", [("sumCpu", json.Number "8")])] /\
    response c = (Some 200, [PResult "3 nodes on amazon"]).
Proof.
  split; [reflexivity|]. split; [reflexivity|]. split; [reflexivity|]. split.
  - intros Hkept.
    destruct (Hkept Sample.overridden eq_refl) as [Hprovider _].
    discriminate Hprovider.
  - exists (Next (recommendChain None)
              (newContext
                 (Sample.request "POST" None (json.Document Sample.conflicting))
                 Sample.params)).
    split; [|split]; vm_compute; reflexivity.
Qed.

Lemma wrapper_keeps_unmentioned_path_fields_witness :
  @ShouldBindJSON Sample.engine Sample.collaborators
    (Sample.request "POST" None (json.Document Sample.workload))
    (@wrapperOf Sample.engine Sample.params) = inr Sample.bound /\
  @Provider Sample.engine Sample.bound = "amazon" /\
  @Region Sample.engine Sample.bound = "eu-west-1".
Proof.
  split; [reflexivity|].
  destruct (@wrapper_keeps_unmentioned_path_fields
              Sample.engine Sample.collaborators
              (Sample.request "POST" None (json.Document Sample.workload))
              Sample.params Sample.bound eq_refl) as [Hprovider Hregion].
  split; [apply Hprovider|apply Hregion]; reflexivity.
Defined.

(** C2 fails as stated: with authentication enabled, GET /status without a
    credential is answered 401 by the token check. *)
Lemma status_rejected_without_credential :
  ~ @statusAlwaysOk Sample.engine Sample.collaborators.
Proof.
  intros Hok.
  destruct (Hok (Some ("recommender", "s3cr3t")) ∅
              (Sample.request "GET" None (json.Malformed "EOF")) [] eq_refl)
    as (c & Hserve & Hresp).
  vm_compute in Hserve. injection Hserve as <-.
  vm_compute in Hresp. discriminate Hresp.
Qed.

Lemma status_answer_witness :
  @cors_contract Sample.engine Sample.collaborators /\
  Method (Sample.request "GET" (Some "s3cr3t") (json.Malformed "EOF")) = "GET" /\
  exists c,
    @serve Sample.engine Sample.collaborators
      (startup (Some ("recommender", "s3cr3t")) ∅) (statusPath ∅)
      (Sample.request "GET" (Some "s3cr3t") (json.Malformed "EOF")) [] = Some c /\
    response c = (Some 200, [PString "ok"]).
Proof.
  split; [exact sample_cors_contract|]. split; [reflexivity|].
  destruct (@status_answer Sample.engine Sample.collaborators
              (Some ("recommender", "s3cr3t")) ∅
              (Sample.request "GET" (Some "s3cr3t") (json.Malformed "EOF")) []
              sample_cors_contract eq_refl)
    as (c & Hserve & Hok & _).
  exists c. split; [exact Hserve|].
  apply Hok. simpl. exists "recommender". reflexivity.
Defined.

Lemma unbindable_body_is_400_witness :
  exists c,
    @serve Sample.engine Sample.collaborators (startup None ∅)
      (recommendPath ∅)
      (Sample.request "POST" None (json.Malformed "unexpected EOF"))
      Sample.params = Some c /\
    response c =
      (Some 400, [PMap (gin_H [("code", HString "bad_params");
                               ("message", HString "validation failed");
                               ("cause", HString "unexpected EOF")])]) /\
    engineCalls (trace c) = [].
Proof.
  destruct (@unbindable_body_is_400 Sample.engine Sample.collaborators
              None ∅
              (Sample.request "POST" None (json.Malformed "unexpected EOF"))
              Sample.params "unexpected EOF"
              sample_cors_contract eq_refl I (conj eq_refl eq_refl)
              (or_introl eq_refl))
    as (c & Hserve & Hresp & _ & Hcalls).
  exists c. auto.
Defined.

Lemma engine_result_is_200_witness :
  exists c,
    @serve Sample.engine Sample.collaborators (startup None ∅)
      (recommendPath ∅)
      (Sample.request "POST" None (json.Document Sample.workload))
      Sample.params = Some c /\
    response c = (Some 200, [PResult "3 nodes on amazon"]).
Proof.
  exact (@engine_result_is_200 Sample.engine Sample.collaborators
           None ∅
           (Sample.request "POST" None (json.Document Sample.workload))
           Sample.params Sample.bound "3 nodes on amazon"
           sample_cors_contract eq_refl I (conj eq_refl eq_refl)
           eq_refl eq_refl).
Defined.

Lemma engine_error_is_500_witness :
  exists c,
    @serve Sample.engine Sample.collaborators (startup None ∅)
      (recommendPath ∅)
      (Sample.request "POST" None (json.Document Sample.workload))
      [("provider", "amazon"); ("region", "us-east-1")] = Some c /\
    response c =
      (Some 500, [PMap (gin_H [("status", HInt 500);
                               ("message", HString "no feasible layout")])]) /\
    length (engineCalls (trace c)) = 1%nat.
Proof.
  exact (@engine_error_is_500 Sample.engine Sample.collaborators
           None ∅
           (Sample.request "POST" None (json.Document Sample.workload))
           [("provider", "amazon"); ("region", "us-east-1")]
           (@Build_RequestWrapper Sample.engine
              [("sumCpu", json.Number "8"); ("sumMem", json.Number "16")]
              "amazon" "us-east-1")
           None "no feasible layout"
           sample_cors_contract eq_refl I (conj eq_refl eq_refl)
           eq_refl eq_refl).
Defined.

(** The body names "google"; the engine is called with the path's
    "amazon" and the response is its answer for "amazon". *)
Lemma engine_gets_path_parameters_witness :
  @Provider Sample.engine Sample.overridden = "google" /\
  exists c,
    @serve Sample.engine Sample.collaborators (startup None ∅)
      (recommendPath ∅)
      (Sample.request "POST" None (json.Document Sample.conflicting))
      Sample.params = Some c /\
    engineCalls (trace c) =
      [("amazon", "eu-west-1", [("sumCpu", json.Number "8")])] /\
    response c = (Some 200, [PResult "3 nodes on amazon"]).
Proof.
  split; [reflexivity|].
  exact (@engine_gets_path_parameters Sample.engine Sample.collaborators
           None ∅
           (Sample.request "POST" None (json.Document Sample.conflicting))
           Sample.params Sample.overridden
           sample_cors_contract eq_refl I (conj eq_refl eq_refl) eq_refl).
Defined.

Lemma provider_validated_before_region_witness :
  exists c,
    @serve Sample.engine Sample.collaborators (startup None ∅)
      (recommendPath ∅)
      (Sample.request "POST" None (json.Document Sample.workload))
      [("provider", "ibm"); ("region", "eu-west-1")] = Some c /\
    (ValidateRegionDataH ∉ invoked (trace c)) /\
    (Bound ∉ trace c) /\
    engineCalls (trace c) = [].
Proof.
  destruct (@provider_validated_before_region
              Sample.engine Sample.collaborators None ∅
              (Sample.request "POST" None (json.Document Sample.workload))
              [("provider", "ibm"); ("region", "eu-west-1")] eq_refl)
    as (c & Hserve & _ & _ & Hrejected).
  destruct (Hrejected "unknown provider" eq_refl)
    as (Hregion & _ & Hbound & Hcalls).
  exists c. auto.
Defined.

Lemma recommend_without_credential_is_401_witness :
  exists c reason,
    @serve Sample.engine Sample.collaborators
      (startup (Some ("recommender", "s3cr3t")) ∅) (recommendPath ∅)
      (Sample.request "POST" None (json.Document Sample.workload))
      Sample.params = Some c /\
    response c = (Some 401, [PMap reason]) /\
    aborted c = true /\
    trace c = [Invoked (JWTAuthH "recommender" "s3cr3t")].
Proof.
  exact (@recommend_without_credential_is_401
           Sample.engine Sample.collaborators "recommender" "s3cr3t" ∅
           (Sample.request "POST" None (json.Document Sample.workload))
           Sample.params sample_jwt_contract eq_refl eq_refl).
Defined.

Lemma base_path_from_environment_witness :
  configuredBasePath {["TELESCOPES_BASEPATH" := "/telescopes"]} = "/telescopes" /\
  configuredBasePath ∅ = "/" /\
  configuredBasePath {["TELESCOPES_BASEPATH" := ""]} = "/".
Proof.
  split; [|split].
  - apply (@base_path_from_environment Sample.engine Sample.collaborators
             {["TELESCOPES_BASEPATH" := "/telescopes"]}); [reflexivity|discriminate].
  - apply (@base_path_from_environment Sample.engine Sample.collaborators ∅).
    left. reflexivity.
  - apply (@base_path_from_environment Sample.engine Sample.collaborators
             {["TELESCOPES_BASEPATH" := ""]}).
    right. reflexivity.
Defined.

(** ** The further properties on the sample deployments *)

Lemma quiet_cors_contract : @cors_contract Quiet.engine Quiet.collaborators.
Proof.
  intros config r Hall Hm. simpl. unfold Sample.decide_cors.
  destruct (Header r !! "Origin") as [origin|]; [|eauto].
  rewrite Hall. simpl.
  destruct (String.eqb_spec (Method r) "OPTIONS"); [contradiction|eauto].
Qed.

(** A request with a wrong credential on a guarded router: no engine call. *)
Lemma engine_called_only_when_bound_witness :
  engineCalls
    (trace (Next (recommendChain (Some ("recommender", "s3cr3t")))
              (newContext
                 (Sample.request "POST" (Some "guess")
                    (json.Document Sample.workload))
                 Sample.params))) = [].
Proof.
  pose (r := Sample.request "POST" (Some "guess")
               (json.Document Sample.workload)).
  pose (authn := Some ("recommender", "s3cr3t")).
  assert (Hserve :
    serve (startup authn ∅) (recommendPath ∅) r Sample.params =
    Some (Next (recommendChain authn) (newContext r Sample.params)))
    by (vm_compute; reflexivity).
  destruct (@engine_called_only_when_bound Sample.engine Sample.collaborators
              authn ∅ r Sample.params _ eq_refl Hserve)
    as [Hnone|[[who Hwho] _]]; [exact Hnone|discriminate Hwho].
Defined.

Lemma status_never_reaches_engine_witness :
  engineCalls
    (trace (Next (statusChain None)
              (newContext
                 (Sample.request "GET" None (json.Document Sample.workload))
                 Sample.params))) = [] /\
  (Bound ∉
   trace (Next (statusChain None)
            (newContext
               (Sample.request "GET" None (json.Document Sample.workload))
               Sample.params))).
Proof.
  pose (r := Sample.request "GET" None (json.Document Sample.workload)).
  assert (Hserve :
    serve (startup None ∅) (statusPath ∅) r Sample.params =
    Some (Next (statusChain None) (newContext r Sample.params)))
    by (vm_compute; reflexivity).
  exact (@status_never_reaches_engine Sample.engine Sample.collaborators
           None ∅ r Sample.params _ eq_refl Hserve).
Defined.

Lemma accepted_token_is_transparent_witness :
  response <$>
    serve (startup (Some ("recommender", "s3cr3t")) ∅) (recommendPath ∅)
      (Sample.request "POST" (Some "s3cr3t") (json.Document Sample.workload))
      Sample.params =
  response <$>
    serve (startup None ∅) (recommendPath ∅)
      (Sample.request "POST" (Some "s3cr3t") (json.Document Sample.workload))
      Sample.params.
Proof.
  exact (@accepted_token_is_transparent Sample.engine Sample.collaborators
           "recommender" "s3cr3t" ∅ (recommendPath ∅)
           (Sample.request "POST" (Some "s3cr3t")
              (json.Document Sample.workload))
           Sample.params "recommender" eq_refl).
Defined.

(** No credential at all, and the engine is called. *)
Lemma late_EnableAuth_guards_nothing_witness :
  exists c,
    serve (EnableAuth (ConfigureRoutes ∅ New) "recommender" "s3cr3t")
      (recommendPath ∅)
      (Sample.request "POST" None (json.Document Sample.workload))
      Sample.params = Some c /\
    (JWTAuthH "recommender" "s3cr3t" ∉ invoked (trace c)) /\
    engineCalls (trace c) =
      [("amazon", "eu-west-1",
        [("sumCpu", json.Number "8"); ("sumMem", json.Number "16")])].
Proof.
  exact (@late_EnableAuth_guards_nothing Sample.engine Sample.collaborators
           ∅ "recommender" "s3cr3t"
           (Sample.request "POST" None (json.Document Sample.workload))
           Sample.params Sample.bound
           sample_cors_contract eq_refl (conj eq_refl eq_refl) eq_refl).
Defined.

Lemma engine_nil_nil_panics_witness :
  exists c,
    @serve Quiet.engine Quiet.collaborators
      (@startup Quiet.engine Quiet.collaborators None ∅)
      (@recommendPath Quiet.engine Quiet.collaborators ∅)
      (Sample.request "POST" None (json.Document Sample.workload))
      Quiet.params = Some c /\
    panicked c = true /\ response c = (None, []) /\
    length (engineCalls (trace c)) = 1%nat.
Proof.
  exact (@engine_nil_nil_panics Quiet.engine Quiet.collaborators
           None ∅
           (Sample.request "POST" None (json.Document Sample.workload))
           Quiet.params Quiet.bound
           quiet_cors_contract eq_refl I (conj eq_refl eq_refl)
           eq_refl eq_refl).
Defined.

Lemma last_body_member_sets_wrapper_field_witness :
  @Provider Sample.engine Sample.overridden = "google".
Proof.
  destruct (@last_body_member_sets_wrapper_field
              Sample.engine Sample.collaborators
              (Sample.request "POST" None (json.Document Sample.conflicting))
              Sample.params [("sumCpu", json.Number "8")] "provider" "google"
              Sample.overridden eq_refl eq_refl) as [Hprovider _].
  apply Hprovider. reflexivity.
Defined.

Lemma engine_call_after_whole_chain_witness :
  invoked
    (trace (Next (recommendChain None)
              (newContext
                 (Sample.request "POST" None (json.Document Sample.workload))
                 Sample.params))) =
  recommendChain None.
Proof.
  pose (r := Sample.request "POST" None (json.Document Sample.workload)).
  assert (Hserve :
    serve (startup None ∅) (recommendPath ∅) r Sample.params =
    Some (Next (recommendChain None) (newContext r Sample.params)))
    by (vm_compute; reflexivity).
  apply (@engine_call_after_whole_chain Sample.engine Sample.collaborators
           None ∅ r Sample.params _ eq_refl Hserve).
  intros Hcalls. vm_compute in Hcalls. discriminate Hcalls.
Defined.
